(** * bimg: the libvips binding layer, embedded in Rocq

    A shallow embedding of [type.go] and of the cgo binding file of the
    [bimg] package (the file that defines [Initialize], [vipsSave],
    [vipsExtract], ...), together with the properties of the binding
    layer that the specification states.

    - Go [int] values are [Z]; a conversion [C.int(x)] wraps to 32 bits.
    - A [*C.VipsImage] is an address ([N], [nil] is 0).
    - Every call into C is an event in a chronological log; what the native
      library answers is a parameter of the development ([native]).
    - A Go function that may panic returns an [outcome]; [defer] is a
      combinator that runs the deferred call once the body has produced its
      outcome. *)

From Stdlib Require Import ZArith List Strings.String Strings.Byte Lia.
From stdpp Require Import base gmap strings list.

Open Scope Z_scope.

(** ** Go values *)

(** [*C.VipsImage], [unsafe.Pointer], [*C.char]: an address. *)
Definition ptr := N.
Definition nil_ptr : ptr := 0%N.

(** A Go [error]: [nil] or [errors.New(s)]. *)
Definition error := option string.
Definition errors_New (s : string) : error := Some s.

(** [C.int(x)] on a Go [int]: the low 32 bits, read as a signed value. *)
Definition C_int (x : Z) : Z := (x + 2 ^ 31) mod 2 ^ 32 - 2 ^ 31.

Definition boolToInt (b : bool) : Z := if b then 1 else 0.

(** *** [float64(x)] and [math.Max] on integers

    [max] goes through [float64].  The float that [float64(x)] yields for an
    integer [x] is itself an integer: [x] rounded to 53 significant bits,
    ties to even.  It is represented here by that integer. *)
Definition float64_of_int (x : Z) : Z :=
  let a := Z.abs x in
  let excess := Z.log2 a + 1 - 53 in
  if excess <=? 0 then x
  else
    let ulp := 2 ^ excess in
    let q := a / ulp in
    let r := a mod ulp in
    let half := ulp / 2 in
    let q' := if (half <? r) || ((r =? half) && Z.odd q) then q + 1 else q in
    Z.sgn x * (q' * ulp).

(** [math.Max] on two floats of integral value. *)
Definition math_Max (x y : Z) : Z := if x <? y then y else x.

(** [strings.HasSuffix]. *)
Definition HasSuffix (s suffix : string) : bool :=
  let n := String.length s in
  let k := String.length suffix in
  (k <=? n)%nat && String.eqb (substring (n - k) k s) suffix.

(** A Go function either returns or panics. *)
Inductive outcome (A : Type) :=
| Ret (a : A)
| Panic (msg : string).
Arguments Ret {A} a.
Arguments Panic {A} msg.

(** ** type.go *)

Definition ImageType := Z.

Definition UNKNOWN : ImageType := 0.
Definition JPEG : ImageType := 1.
Definition WEBP : ImageType := 2.
Definition PNG : ImageType := 3.
Definition TIFF : ImageType := 4.
Definition GIF : ImageType := 5.
Definition PDF : ImageType := 6.
Definition SVG : ImageType := 7.
Definition MAGICK : ImageType := 8.

(** [ImageTypes]: the image types supported, with their alias names. *)
Definition ImageTypes : gmap Z string :=
  {[ JPEG := "jpeg"; PNG := "png"; WEBP := "webp"; TIFF := "tiff";
     MAGICK := "magick" ]}.

(** [ImageTypeName]: a missing key reads as the empty string in Go. *)
Definition ImageTypeName (t : ImageType) : string :=
  let imageType := default "" (ImageTypes !! t) in
  if String.eqb imageType "" then "unknown" else imageType.

Record SupportedImageType := { Load : bool; Save : bool }.

(** ** Calls into C *)

(** Go [float64] and [float32] values are only ever handed to the native
    library, and the state of that library is its own: both types are left
    open. *)
Class Platform := { gofloat : Type; vips : Type }.

Section Types.
Context `{Platform}.

Record Color := { R : Z; G : Z; B : Z }.

(** The fields of [Watermark] that [vipsWatermark] reads. *)
Record Watermark := {
  wm_Width : Z; wm_DPI : Z; wm_Margin : Z; wm_Opacity : gofloat;
  wm_NoReplicate : bool; wm_Text : string; wm_Font : string;
  wm_Background : Color }.

Record GaussianBlur := { Sigma : gofloat; MinAmpl : gofloat }.

Record Sharpen := {
  Radius : Z; X1 : gofloat; Y2 : gofloat; Y3 : gofloat;
  M1 : gofloat; M2 : gofloat }.

Record vipsSaveOptions := {
  Quality : Z; Compression : Z; Type_ : ImageType; Interlace : bool;
  NoProfile : bool; Interpretation : Z }.

Record vipsWatermarkOptions := {
  o_Width : Z; o_DPI : Z; o_Margin : Z; o_NoReplicate : Z;
  o_Opacity : gofloat; o_Background : Z * Z * Z }.

Record vipsWatermarkTextOptions := { to_Text : ptr; to_Font : ptr }.

(** One constructor per C function the binding calls, with the arguments
    as the Go code passes them (output parameters left out; the constant
    arguments of [vips_affine_interpolator] too). *)
Inductive ccall :=
| CString (s : string)
| free (p : ptr)
| free_slice (buf : list byte)
| g_free (p : ptr)
| g_object_unref (p : ptr)
| vips_init (argv0 : ptr)
| vips_cache_set_max_mem (n : Z)
| vips_cache_set_max (n : Z)
| vips_concurrency_set (n : Z)
| vips_enable_cache_set_trace
| vips_shutdown
| vips_error_buffer
| vips_error_clear
| vips_thread_shutdown
| has_alpha_channel (image : ptr)
| remove_profile (image : ptr)
| vips_colourspace_issupported_bridge (image : ptr)
| vips_colourspace_bridge (image : ptr) (interpretation : Z)
| vips_flatten_background_brigde (image : ptr) (background : Z * Z * Z)
| vips_webpsave_bridge (image : ptr) (strip quality : Z)
| vips_pngsave_bridge (image : ptr) (strip compression quality interlace : Z)
| vips_jpegsave_bridge (image : ptr) (strip quality interlace : Z)
| vips_foreign_find_load_buffer (buf : list byte) (length : Z)
| vips_rotate (image : ptr) (angle : Z)
| vips_flip_bridge (image : ptr) (direction : Z)
| vips_zoom_bridge (image : ptr) (xfac yfac : Z)
| vips_watermark (image : ptr) (t : vipsWatermarkTextOptions)
    (o : vipsWatermarkOptions)
| vips_extract_area_bridge (image : ptr) (left top width height : Z)
| vips_embed_bridge (image : ptr) (left top width height extend : Z)
| vips_insert_bridge (main sub : ptr) (left top : Z)
| vips_interpolate_new (name : ptr)
| vips_affine_interpolator (image : ptr) (a d : gofloat) (interpolator : ptr)
| vips_gaussblur_bridge (image : ptr) (sigma min_ampl : gofloat)
| vips_sharpen_bridge (image : ptr) (radius : Z) (x1 y2 y3 m1 m2 : gofloat)
| vips_extract_band_bridge (image : ptr) (band num_bands : Z)
| vips_linear1_bridge (image : ptr) (a b : gofloat)
| vips_add_bridge (left right : ptr)
| vips_multiply_bridge (left right : ptr)
| vips_divide_bridge (left right : ptr)
| vips_ifthenelse_bridge (cond in1 in2 : ptr) (blend : Z)
| vips_bandjoin2_bridge (in1 in2 : ptr).

(** What a C call hands back: its return value when that is an integer,
    the pointer it returns or writes through its [out] parameter, the
    string or the bytes it returns. *)
Record cret := {
  r_int : Z; r_ptr : ptr; r_str : string; r_bytes : list byte }.

(** What the Go side does: calls into C, and locks. *)
Inductive event :=
| Call (c : ccall)
| m_Lock
| m_Unlock
| LockOSThread
| UnlockOSThread
| imageMutex_RLock
| imageMutex_RUnlock.

(** The process: the package variables [initialized] and
    [SupportedImageTypes], the state of the native library and the
    chronological log of events. *)
Record world := {
  initialized : bool;
  SupportedImageTypes : gmap Z SupportedImageType;
  engine : vips;
  log : list event }.

Definition M (A : Type) := world -> outcome A * world.

End Types.

(** ** Parameters: the native library and what the other files declare

    [native] is libvips and the C bridge functions of [vips.h];
    [MaxSize], [ExtendBackground], [InterpretationSRGB], the [String]
    method of [Interpolator] and [discoverSupportedImageTypes] are declared
    in other files of the package.  A [float64] too large for [int] converts
    to a value that depends on the machine: [int_of_float64_overflow]. *)
Class Native `{Platform} := {
  native : vips -> ccall -> cret * vips;
  VIPS_MAJOR_VERSION : Z;
  VIPS_MINOR_VERSION : Z;
  VIPS_MAGICK_SUPPORT : Z;
  Getenv : string -> string;
  MaxSize : Z;
  ExtendBackground : Z;
  InterpretationSRGB : Z;
  Interpolator_String : Z -> string;
  discoverSupportedImageTypes : M unit;
  int_of_float64_overflow : Z }.

Section Code.
Context `{Native}.

(** ** Go control flow *)

Definition ret {X} (a : X) : M X := fun w => (Ret a, w).

Definition bind {X Y} (m : M X) (k : X -> M Y) : M Y :=
  fun w =>
    match m w with
    | (Ret a, w') => k a w'
    | (Panic msg, w') => (Panic msg, w')
    end.

Definition panic {X} (msg : string) : M X := fun w => (Panic msg, w).

(** [defer d] in front of [body]: [d] runs when [body] is over, whether it
    returned or panicked. *)
Definition defer {X} (d : M unit) (body : M X) : M X :=
  fun w => (fst (body w), snd (d (snd (body w)))).

Definition with_log (w : world) (l : list event) : world :=
  {| initialized := initialized w;
     SupportedImageTypes := SupportedImageTypes w;
     engine := engine w; log := l |}.

Definition emit (e : event) : M unit :=
  fun w => (Ret tt, with_log w (log w ++ [e])).

(** A call into C: logged, then answered by the native library. *)
Definition C (c : ccall) : M cret :=
  fun w =>
    (Ret (fst (native (engine w) c)),
     {| initialized := initialized w;
        SupportedImageTypes := SupportedImageTypes w;
        engine := snd (native (engine w) c);
        log := log w ++ [Call c] |}).

Definition get_initialized : M bool := fun w => (Ret (initialized w), w).

Definition set_initialized (b : bool) : M unit :=
  fun w => (Ret tt, {| initialized := b;
                       SupportedImageTypes := SupportedImageTypes w;
                       engine := engine w; log := log w |}).

Definition get_SupportedImageTypes : M (gmap Z SupportedImageType) :=
  fun w => (Ret (SupportedImageTypes w), w).

End Code.

Declare Scope go_scope.
Delimit Scope go_scope with go.
Notation "'let*' x := m 'in' k" := (bind m (fun x => k))
  (at level 10, x pattern, m at level 100, k at level 200) : go_scope.
Notation "m ;;; k" := (bind m (fun _ => k))
  (at level 100, k at level 200, right associativity) : go_scope.
Open Scope go_scope.

Section Vips.
Context `{Native}.

(** ** type.go, the functions that consult libvips *)

(** [IsImageTypeSupportedByVips]: discovers the supported types when the
    cache is empty, then looks [t] up. *)
Definition IsImageTypeSupportedByVips (t : ImageType) : M SupportedImageType :=
  emit imageMutex_RLock ;;;
  let* types := get_SupportedImageTypes in
  let itShouldDiscover := (size types =? 0)%nat in
  (if itShouldDiscover
   then emit imageMutex_RUnlock ;;; discoverSupportedImageTypes
   else ret tt) ;;;
  let* types := get_SupportedImageTypes in
  let found := types !! t in
  (if negb itShouldDiscover then emit imageMutex_RUnlock else ret tt) ;;;
  match found with
  | Some supported => ret supported
  | None => ret {| Load := false; Save := false |}
  end.

(** [IsTypeSupported]: [ok && ...] evaluates its right operand only when
    [ok] holds. *)
Definition IsTypeSupported (t : ImageType) : M bool :=
  let ok := bool_decide (is_Some (ImageTypes !! t)) in
  if ok then let* s := IsImageTypeSupportedByVips t in ret (Load s)
  else ret false.

Definition IsTypeSupportedSave (t : ImageType) : M bool :=
  let ok := bool_decide (is_Some (ImageTypes !! t)) in
  if ok then let* s := IsImageTypeSupportedByVips t in ret (Save s)
  else ret false.

(** ** The binding file *)

Definition HasMagickSupport : bool := VIPS_MAGICK_SUPPORT =? 1.

Definition maxCacheMem : Z := 100 * 1024 * 1024.
Definition maxCacheSize : Z := 500.

(** A call into C whose result is dropped. *)
Definition C_ (c : ccall) : M unit := C c ;;; ret tt.

(** [Initialize] *)
Definition Initialize : M unit :=
  if (VIPS_MAJOR_VERSION <=? 7) && (VIPS_MINOR_VERSION <? 40)
  then panic "unsupported libvips version!"
  else
    emit m_Lock ;;;
    emit LockOSThread ;;;
    defer (emit m_Unlock) (
    defer (emit UnlockOSThread) (
      let* name := C (CString "bimg") in
      let* err := C (vips_init (r_ptr name)) in
      if negb (r_int err =? 0) then panic "unable to start vips!"
      else
        C_ (vips_cache_set_max_mem maxCacheMem) ;;;
        C_ (vips_cache_set_max maxCacheSize) ;;;
        (if String.eqb (Getenv "VIPS_CONCURRENCY") ""
         then C_ (vips_concurrency_set 1) else ret tt) ;;;
        (if negb (String.eqb (Getenv "VIPS_TRACE") "")
         then C_ vips_enable_cache_set_trace else ret tt) ;;;
        set_initialized true)).

(** [Shutdown] *)
Definition Shutdown : M unit :=
  emit m_Lock ;;;
  defer (emit m_Unlock) (
    let* b := get_initialized in
    if b then C_ vips_shutdown ;;; set_initialized false
    else ret tt).

(** [catchVipsError] *)
Definition catchVipsError : M error :=
  let* s := C vips_error_buffer in
  C_ vips_error_clear ;;;
  C_ vips_thread_shutdown ;;;
  ret (errors_New (r_str s)).

(** The tail shared by the operations: [if err != 0 { return nil,
    catchVipsError() }; return out, nil]. *)
Definition out_or_error (r : cret) : M (ptr * error) :=
  if negb (r_int r =? 0)
  then let* e := catchVipsError in ret (nil_ptr, e)
  else ret (r_ptr r, None).

Definition vipsHasAlpha (image : ptr) : M bool :=
  let* r := C (has_alpha_channel image) in ret (r_int r >? 0).

Definition vipsColourspaceIsSupported (image : ptr) : M bool :=
  let* r := C (vips_colourspace_issupported_bridge image) in
  ret (r_int r =? 1).

Definition vipsRotate (image : ptr) (angle : Z) : M (ptr * error) :=
  defer (C_ (g_object_unref image)) (
    let* r := C (vips_rotate image (C_int angle)) in
    out_or_error r).

Definition vipsFlip (image : ptr) (direction : Z) : M (ptr * error) :=
  defer (C_ (g_object_unref image)) (
    let* r := C (vips_flip_bridge image (C_int direction)) in
    out_or_error r).

Definition vipsZoom (image : ptr) (zoom : Z) : M (ptr * error) :=
  defer (C_ (g_object_unref image)) (
    let* r := C (vips_zoom_bridge image (C_int zoom) (C_int zoom)) in
    out_or_error r).

Definition vipsWatermark (image : ptr) (w : Watermark) : M (ptr * error) :=
  let noReplicate := if wm_NoReplicate w then 1 else 0 in
  let* text := C (CString (wm_Text w)) in
  let* font := C (CString (wm_Font w)) in
  let background :=
    (R (wm_Background w), G (wm_Background w), B (wm_Background w)) in
  let textOpts := {| to_Text := r_ptr text; to_Font := r_ptr font |} in
  let opts :=
    {| o_Width := C_int (wm_Width w); o_DPI := C_int (wm_DPI w);
       o_Margin := C_int (wm_Margin w); o_NoReplicate := C_int noReplicate;
       o_Opacity := wm_Opacity w; o_Background := background |} in
  defer (C_ (free (r_ptr text))) (
  defer (C_ (free (r_ptr font))) (
    let* r := C (vips_watermark image textOpts opts) in
    out_or_error r)).

(** [vipsFlattenBackground] *)
Definition vipsFlattenBackground (image : ptr) (background : Color)
  : M (ptr * error) :=
  let backgroundC := (R background, G background, B background) in
  let* alpha := vipsHasAlpha image in
  if alpha then
    let* r := C (vips_flatten_background_brigde image backgroundC) in
    if negb (r_int r =? 0)
    then let* e := catchVipsError in ret (nil_ptr, e)
    else C_ (g_object_unref image) ;;; ret (r_ptr r, None)
  else ret (image, None).

(** [vipsPreSave]: [o] is a pointer in Go; the options as the function
    leaves them are returned with the result. *)
Definition vipsPreSave (image : ptr) (o : vipsSaveOptions)
  : M (vipsSaveOptions * ptr * error) :=
  (if NoProfile o then C_ (remove_profile image) else ret tt) ;;;
  let o :=
    if Interpretation o =? 0
    then {| Quality := Quality o; Compression := Compression o;
            Type_ := Type_ o; Interlace := Interlace o;
            NoProfile := NoProfile o; Interpretation := InterpretationSRGB |}
    else o in
  let interpretation := C_int (Interpretation o) in
  let* supported := vipsColourspaceIsSupported image in
  if supported then
    let* r := C (vips_colourspace_bridge image interpretation) in
    if negb (r_int r =? 0)
    then let* e := catchVipsError in ret (o, nil_ptr, e)
    else ret (o, r_ptr r, None)
  else ret (o, image, None).

(** The [switch o.Type] of [vipsSave]. *)
Definition encode (tmpImage : ptr) (o : vipsSaveOptions) : M cret :=
  let interlace := C_int (boolToInt (Interlace o)) in
  let quality := C_int (Quality o) in
  if Type_ o =? WEBP then
    C (vips_webpsave_bridge tmpImage 1 quality)
  else if Type_ o =? PNG then
    C (vips_pngsave_bridge tmpImage 1 (C_int (Compression o)) quality
         interlace)
  else
    C (vips_jpegsave_bridge tmpImage 1 quality interlace).

(** [vipsSave]: the second [defer] is registered only once [vipsPreSave]
    has returned without error. *)
Definition vipsSave (image : ptr) (o : vipsSaveOptions)
  : M (list byte * error) :=
  defer (C_ (g_object_unref image)) (
    let* res := vipsPreSave image o in
    let '(o, tmpImage, err) := res in
    match err with
    | Some e => ret ([], Some e)
    | None =>
        defer (C_ (g_object_unref tmpImage)) (
          let* r := encode tmpImage o in
          if negb (r_int r =? 0)
          then let* e := catchVipsError in ret ([], e)
          else
            let buf := r_bytes r in
            C_ (g_free (r_ptr r)) ;;;
            C_ vips_error_clear ;;;
            ret (buf, None))
    end).

(** [int(f)] for a float of integral value. *)
Definition int_of_float64 (f : Z) : Z :=
  if (- 2 ^ 63 <=? f) && (f <? 2 ^ 63) then f else int_of_float64_overflow.

(** [max]: [int(math.Max(float64(x), 0))]. *)
Definition max (x : Z) : Z :=
  int_of_float64 (math_Max (float64_of_int x) 0).

(** [vipsExtract] *)
Definition vipsExtract (image : ptr) (left top width height : Z)
  : M (ptr * error) :=
  defer (C_ (g_object_unref image)) (
    if (width >? MaxSize) || (height >? MaxSize)
    then ret (nil_ptr, errors_New "Maximum image size exceeded")
    else
      let top := max top in
      let left := max left in
      let* r := C (vips_extract_area_bridge image (C_int left) (C_int top)
                     (C_int width) (C_int height)) in
      out_or_error r).

(** [vipsEmbed] *)
Definition vipsEmbed (input : ptr) (left top width height extend : Z)
  : M (ptr * error) :=
  defer (C_ (g_object_unref input)) (
    let extend := if extend >? 5 then ExtendBackground else extend in
    let* r := C (vips_embed_bridge input (C_int left) (C_int top)
                   (C_int width) (C_int height) (C_int extend)) in
    out_or_error r).

(** [vipsInsert] *)
Definition vipsInsert (main sub : ptr) (left top : Z) : M (ptr * error) :=
  defer (C_ (g_object_unref main)) (
  defer (C_ (g_object_unref sub)) (
    let* r := C (vips_insert_bridge main sub (C_int left) (C_int top)) in
    out_or_error r)).

(** [vipsAffine]: [i] is an [Interpolator]. *)
Definition vipsAffine (input : ptr) (residualx residualy : gofloat) (i : Z)
  : M (ptr * error) :=
  let* cstring := C (CString (Interpolator_String i)) in
  let* interpolator := C (vips_interpolate_new (r_ptr cstring)) in
  defer (C_ (free (r_ptr cstring))) (
  defer (C_ (g_object_unref input)) (
  defer (C_ (g_object_unref (r_ptr interpolator))) (
    let* r := C (vips_affine_interpolator input residualx residualy
                   (r_ptr interpolator)) in
    out_or_error r))).

(** [bytes[i]]: panics past the end of the slice. *)
Definition index (bytes : list byte) (i : nat) : M byte :=
  match bytes !! i with
  | Some b => ret b
  | None => panic "index out of range"
  end.

(** [bytes[i] == v] *)
Definition byte_is (bytes : list byte) (i : nat) (v : byte) : M bool :=
  let* b := index bytes i in ret (Byte.eqb b v).

(** [a && b] and [a || b]: the right operand runs only when needed. *)
Definition andM (a b : M bool) : M bool :=
  let* x := a in if x then b else ret false.
Definition orM (a b : M bool) : M bool :=
  let* x := a in if x then ret true else b.

(** A [defer] whose call may not come back: when the deferred call
    panics or aborts, so does the function.  It agrees with [defer] on a
    deferred call that returns. *)
Definition defer_may_abort {X} (d : M unit) (body : M X) : M X :=
  fun w =>
    match d (snd (body w)) with
    | (Ret _, w') => (fst (body w), w')
    | (Panic msg, w') => (Panic msg, w')
    end.

(** [C.free(unsafe.Pointer(&buf[0]))]: the pointer is into a Go slice, not
    into memory that [malloc] handed out, and the C library aborts the
    process inside [free].  The call is made and logged; it does not
    return. *)
Definition free_go_memory (buf : list byte) : M unit :=
  C_ (free_slice buf) ;;; panic "free(): invalid pointer".

(** [readImageType]: [&buf[0]] panics on an empty slice; the deferred
    [C.free(imageBuf)] frees the Go slice. *)
Definition readImageType (buf : list byte) : M string :=
  let length := Z.of_nat (List.length buf) in
  index buf 0 ;;;
  let* load := C (vips_foreign_find_load_buffer buf length) in
  defer_may_abort (free_go_memory buf) (ret (r_str load)).

(** [vipsImageType] *)
Definition vipsImageType (bytes : list byte) : M ImageType :=
  if (List.length bytes =? 0)%nat then ret UNKNOWN
  else
    let* png := andM (byte_is bytes 0 x89) (andM (byte_is bytes 1 x50)
                  (andM (byte_is bytes 2 x4e) (byte_is bytes 3 x47))) in
    if png then ret PNG else
    let* jpeg := andM (byte_is bytes 0 xff) (andM (byte_is bytes 1 xd8)
                   (byte_is bytes 2 xff)) in
    if jpeg then ret JPEG else
    let* webp := andM (byte_is bytes 8 x57) (andM (byte_is bytes 9 x45)
                   (andM (byte_is bytes 10 x42) (byte_is bytes 11 x50))) in
    if webp then ret WEBP else
    let* tiff :=
      orM (andM (byte_is bytes 0 x49) (andM (byte_is bytes 1 x49)
             (andM (byte_is bytes 2 x2a) (byte_is bytes 3 x00))))
          (andM (byte_is bytes 0 x4d) (andM (byte_is bytes 1 x4d)
             (andM (byte_is bytes 2 x00) (byte_is bytes 3 x2a)))) in
    if tiff then ret TIFF else
    let* magick :=
      andM (ret HasMagickSupport)
           (let* name := readImageType bytes in
            ret (HasSuffix name "MagickBuffer")) in
    if magick then ret MAGICK else ret UNKNOWN.

(** [DetermineImageType] (type.go) *)
Definition DetermineImageType (buf : list byte) : M ImageType :=
  vipsImageType buf.

(** [vipsGaussianBlur] *)
Definition vipsGaussianBlur (image : ptr) (o : GaussianBlur)
  : M (ptr * error) :=
  defer (C_ (g_object_unref image)) (
    let* r := C (vips_gaussblur_bridge image (Sigma o) (MinAmpl o)) in
    out_or_error r).

(** [vipsSharpen] *)
Definition vipsSharpen (image : ptr) (o : Sharpen) : M (ptr * error) :=
  defer (C_ (g_object_unref image)) (
    let* r := C (vips_sharpen_bridge image (C_int (Radius o)) (X1 o) (Y2 o)
                   (Y3 o) (M1 o) (M2 o)) in
    out_or_error r).

(** [vipsExtractBand] *)
Definition vipsExtractBand (image : ptr) (band numberOfBands : Z)
  : M (ptr * error) :=
  defer (C_ (g_object_unref image)) (
    let* r := C (vips_extract_band_bridge image (C_int band)
                   (C_int numberOfBands)) in
    out_or_error r).

(** [vipsLinear1] *)
Definition vipsLinear1 (image : ptr) (a b : gofloat) : M (ptr * error) :=
  defer (C_ (g_object_unref image)) (
    let* r := C (vips_linear1_bridge image a b) in
    out_or_error r).

(** [vipsAdd], [vipsMultiply], [vipsDivide] *)
Definition vipsAdd (left right : ptr) : M (ptr * error) :=
  defer (C_ (g_object_unref left)) (
  defer (C_ (g_object_unref right)) (
    let* r := C (vips_add_bridge left right) in
    out_or_error r)).

Definition vipsMultiply (left right : ptr) : M (ptr * error) :=
  defer (C_ (g_object_unref left)) (
  defer (C_ (g_object_unref right)) (
    let* r := C (vips_multiply_bridge left right) in
    out_or_error r)).

Definition vipsDivide (left right : ptr) : M (ptr * error) :=
  defer (C_ (g_object_unref left)) (
  defer (C_ (g_object_unref right)) (
    let* r := C (vips_divide_bridge left right) in
    out_or_error r)).

(** [vipsIthenelse] *)
Definition vipsIthenelse (cond in1 in2 : ptr) (blend : bool)
  : M (ptr * error) :=
  defer (C_ (g_object_unref cond)) (
  defer (C_ (g_object_unref in1)) (
  defer (C_ (g_object_unref in2)) (
    let* r := C (vips_ifthenelse_bridge cond in1 in2
                   (C_int (boolToInt blend))) in
    out_or_error r))).

(** [vipsBandjoin2] *)
Definition vipsBandjoin2 (in1 in2 : ptr) : M (ptr * error) :=
  defer (C_ (g_object_unref in1)) (
  defer (C_ (g_object_unref in2)) (
    let* r := C (vips_bandjoin2_bridge in1 in2) in
    out_or_error r)).

End Vips.

(** ** Vocabulary of the statements *)

Section Vocabulary.
Context `{Native}.

(** The operations of the pipeline, each with its arguments. *)
Inductive operation :=
| Rotate (image : ptr) (angle : Z)
| Flip (image : ptr) (direction : Z)
| Zoom (image : ptr) (zoom : Z)
| Extract (image : ptr) (left top width height : Z)
| Embed (image : ptr) (left top width height extend : Z)
| Insert (main sub : ptr) (left top : Z)
| Affine (image : ptr) (residualx residualy : gofloat) (i : Z)
| Blur (image : ptr) (o : GaussianBlur)
| Sharp (image : ptr) (o : Sharpen)
| ExtractBand (image : ptr) (band numberOfBands : Z)
| Linear (image : ptr) (a b : gofloat)
| Add (left right : ptr)
| Multiply (left right : ptr)
| Divide (left right : ptr)
| SelectBlend (cond in1 in2 : ptr) (blend : bool)
| BandJoin (in1 in2 : ptr)
| Mark (image : ptr) (w : Watermark).

Definition run (op : operation) : M (ptr * error) :=
  match op with
  | Rotate image angle => vipsRotate image angle
  | Flip image direction => vipsFlip image direction
  | Zoom image zoom => vipsZoom image zoom
  | Extract image l t w h => vipsExtract image l t w h
  | Embed image l t w h e => vipsEmbed image l t w h e
  | Insert main sub l t => vipsInsert main sub l t
  | Affine image rx ry i => vipsAffine image rx ry i
  | Blur image o => vipsGaussianBlur image o
  | Sharp image o => vipsSharpen image o
  | ExtractBand image b n => vipsExtractBand image b n
  | Linear image a b => vipsLinear1 image a b
  | Add l r => vipsAdd l r
  | Multiply l r => vipsMultiply l r
  | Divide l r => vipsDivide l r
  | SelectBlend c a b blend => vipsIthenelse c a b blend
  | BandJoin a b => vipsBandjoin2 a b
  | Mark image w => vipsWatermark image w
  end.

(** The image handles an operation is given, in argument order. *)
Definition inputs (op : operation) : list ptr :=
  match op with
  | Rotate image _ | Flip image _ | Zoom image _ | Extract image _ _ _ _
  | Embed image _ _ _ _ _ | Affine image _ _ _ | Blur image _
  | Sharp image _ | ExtractBand image _ _ | Linear image _ _
  | Mark image _ => [image]
  | Insert a b _ _ | Add a b | Multiply a b | Divide a b | BandJoin a b =>
      [a; b]
  | SelectBlend c a b _ => [c; a; b]
  end.

Definition is_Mark (op : operation) : bool :=
  match op with Mark _ _ => true | _ => false end.

Definition is_Affine (op : operation) : bool :=
  match op with Affine _ _ _ _ => true | _ => false end.

(** The pointers handed to [g_object_unref], in the order of the calls. *)
Fixpoint unrefs (es : list event) : list ptr :=
  match es with
  | [] => []
  | Call (g_object_unref p) :: es => p :: unrefs es
  | _ :: es => unrefs es
  end.

(** The calls of a log. *)
Fixpoint calls (es : list event) : list ccall :=
  match es with
  | [] => []
  | Call c :: es => c :: calls es
  | _ :: es => calls es
  end.

Definition is_vips_init (c : ccall) : bool :=
  match c with vips_init _ => true | _ => false end.

Definition is_extract_area (c : ccall) : bool :=
  match c with vips_extract_area_bridge _ _ _ _ _ => true | _ => false end.

Definition is_flatten (c : ccall) : bool :=
  match c with
  | vips_flatten_background_brigde _ _ => true
  | _ => false
  end.

(** The encoder a call runs, and the image it encodes. *)
Definition encoder_of (c : ccall) : option (ImageType * ptr) :=
  match c with
  | vips_webpsave_bridge image _ _ => Some (WEBP, image)
  | vips_pngsave_bridge image _ _ _ _ => Some (PNG, image)
  | vips_jpegsave_bridge image _ _ _ => Some (JPEG, image)
  | _ => None
  end.

(** Modelled from the spec: the native bridge [vips_watermark] of
    [vips.h], which is not among the sources read here.  The specification
    gives every operation the shape "op(owned handle(s), params)" and has
    the inputs "always released by the operation itself", "even on failure
    the input is released".  [vipsWatermark] hands its image to this bridge
    and to nothing else, so the bridge is where the image is consumed; the
    other bridges leave their inputs to the wrappers, which release them.
    [consumed_by_bridge c] lists the handles that the call [c] consumes. *)
Definition consumed_by_bridge (c : ccall) : list ptr :=
  match c with
  | vips_watermark image _ _ => [image]
  | _ => []
  end.

(** The handles released over a log, in order: those handed to
    [g_object_unref], and those that a bridge consumes. *)
Fixpoint released (es : list event) : list ptr :=
  match es with
  | [] => []
  | Call (g_object_unref p) :: es => p :: released es
  | Call c :: es => consumed_by_bridge c ++ released es
  | _ :: es => released es
  end.

(** The interpolator that [vipsAffine] creates from [w] for [i]: what
    [vips_interpolate_new] returns for the C string of the name of [i]. *)
Definition created_interpolator (w : world) (i : Z) : ptr :=
  let name := CString (Interpolator_String i) in
  r_ptr (fst (native (snd (native (engine w) name))
                (vips_interpolate_new (r_ptr (fst (native (engine w) name)))))).

(** An operation releases its inputs from [w]: the events it adds to the
    log release each input handle, as many times as the handle is
    passed. *)
Definition releases_inputs (op : operation) (w : world) : Prop :=
  exists es, log (snd (run op w)) = log w ++ es /\ inputs op ⊆+ released es.

(** [image] carries an alpha channel in [w]: what [has_alpha_channel]
    answers there, read as [vipsHasAlpha] reads it. *)
Definition has_alpha (w : world) (image : ptr) : bool :=
  r_int (fst (native (engine w) (has_alpha_channel image))) >? 0.

(** [vipsPreSave] flattens from [w]: when the image carries alpha, the
    events that [vipsPreSave] adds to the log hold a call of the flatten
    bridge. *)
Definition presave_flattens (image : ptr) (o : vipsSaveOptions) (w : world)
  : Prop :=
  has_alpha w image = true ->
  exists (es : list event) (h : ptr) (bg : Z * Z * Z),
    log (snd (vipsPreSave image o w)) = log w ++ es /\
    In (vips_flatten_background_brigde h bg) (calls es).

End Vocabulary.

Arguments C_int : simpl never.
Arguments max : simpl never.

(** ** A concrete platform

    A native library that answers every call from a script: the integer it
    returns is chosen by the call, the pointer it hands back is fresh, its
    state counts the calls answered.  The constants are those of libvips 8
    and of the package ([MaxSize] 16383, [ExtendBackground] 5, sRGB 22). *)

Definition demo_platform : Platform := {| gofloat := Z; vips := nat |}.

Definition scripted (answer : @ccall demo_platform -> Z)
  (n : nat) (c : @ccall demo_platform) : cret * @vips demo_platform :=
  ({| r_int := answer c; r_ptr := N.of_nat (100 + n);
      r_str := "vips: operation failed"; r_bytes := [x4a; x46] |}, S n).

Definition demo (major minor : Z) (answer : @ccall demo_platform -> Z)
  : @Native demo_platform :=
  {| native := scripted answer : @vips demo_platform -> _;
     VIPS_MAJOR_VERSION := major;
     VIPS_MINOR_VERSION := minor;
     VIPS_MAGICK_SUPPORT := 0;
     Getenv := fun _ => "";
     MaxSize := 16383;
     ExtendBackground := 5;
     InterpretationSRGB := 22;
     Interpolator_String := fun _ => "bicubic";
     discoverSupportedImageTypes := fun w => (Ret tt, w);
     int_of_float64_overflow := - 2 ^ 63 |}.

(** Every call succeeds; no image has alpha or a supported colourspace. *)
Definition all_ok (c : @ccall demo_platform) : Z := 0.

(** Every call succeeds; every image has alpha and a supported
    colourspace. *)
Definition with_alpha (c : @ccall demo_platform) : Z :=
  match c with
  | has_alpha_channel _ | vips_colourspace_issupported_bridge _ => 1
  | _ => 0
  end.

(** A process that has not started libvips yet. *)
Definition w0 : @world demo_platform :=
  @Build_world demo_platform false ∅ 0%nat [].

Definition demo_watermark : @Watermark demo_platform :=
  @Build_Watermark demo_platform 200 100 10 1 false "bimg" "sans 10"
    {| R := 255; G := 255; B := 255 |}.

Definition demo_options (t : ImageType) : vipsSaveOptions :=
  {| Quality := 80; Compression := 6; Type_ := t; Interlace := false;
     NoProfile := false; Interpretation := 0 |}.

(** ** More of the two files *)

Section More.
Context `{Native}.

(** [getImageBuffer]: both [defer]s are registered after the check of the
    status, so neither runs on the error path. *)
Definition getImageBuffer (image : ptr) : M (list byte * error) :=
  let interlace := 0 in
  let quality := 100 in
  let* r := C (vips_jpegsave_bridge image 1 quality interlace) in
  if negb (r_int r =? 0)
  then let* e := catchVipsError in ret ([], e)
  else
    defer (C_ (g_free (r_ptr r))) (
    defer (C_ vips_error_clear) (
      ret (r_bytes r, None))).

(** [DetermineImageTypeName] (type.go) *)
Definition DetermineImageTypeName (buf : list byte) : M string :=
  let* t := vipsImageType buf in ret (ImageTypeName t).

(** [IsTypeNameSupported] (type.go): [range ImageTypes] visits the pairs
    of the map in an order that Go leaves open; [order] is that order. *)
Fixpoint IsTypeNameSupported (order : list (ImageType * string)) (t : string)
  : M bool :=
  match order with
  | [] => ret false
  | (imageType, name) :: rest =>
      if String.eqb name t
      then let* s := IsImageTypeSupportedByVips imageType in ret (Load s)
      else IsTypeNameSupported rest t
  end.

(** [IsTypeNameSupportedSave] (type.go) *)
Fixpoint IsTypeNameSupportedSave (order : list (ImageType * string))
  (t : string) : M bool :=
  match order with
  | [] => ret false
  | (imageType, name) :: rest =>
      if String.eqb name t
      then let* s := IsImageTypeSupportedByVips imageType in ret (Save s)
      else IsTypeNameSupportedSave rest t
  end.

(** An order in which [range ImageTypes] may visit the map. *)
Definition range_order (order : list (ImageType * string)) : Prop :=
  order ≡ₚ map_to_list ImageTypes.

(** *** Reading a log *)

(** The pointers handed to [free] and to [g_free], in the order of the
    calls. *)
Fixpoint frees (cs : list ccall) : list ptr :=
  match cs with
  | [] => []
  | free p :: cs => p :: frees cs
  | _ :: cs => frees cs
  end.

Fixpoint g_frees (cs : list ccall) : list ptr :=
  match cs with
  | [] => []
  | g_free p :: cs => p :: g_frees cs
  | _ :: cs => g_frees cs
  end.

(** The pointers that the [CString] calls among [cs] return when the
    native library answers [cs] in turn from the state [v]. *)
Fixpoint cstrings (v : vips) (cs : list ccall) : list ptr :=
  match cs with
  | [] => []
  | c :: cs =>
      match c with
      | CString _ => r_ptr (fst (native v c)) :: cstrings (snd (native v c)) cs
      | _ => cstrings (snd (native v c)) cs
      end
  end.

(** The three calls of [catchVipsError]. *)
Definition is_error_channel (c : ccall) : bool :=
  match c with
  | vips_error_buffer | vips_error_clear | vips_thread_shutdown => true
  | _ => false
  end.

(** The native operations behind the pipeline. *)
Definition is_operation_bridge (c : ccall) : bool :=
  match c with
  | vips_rotate _ _ | vips_flip_bridge _ _ | vips_zoom_bridge _ _ _
  | vips_watermark _ _ _ | vips_extract_area_bridge _ _ _ _ _
  | vips_embed_bridge _ _ _ _ _ _ | vips_insert_bridge _ _ _ _
  | vips_affine_interpolator _ _ _ _ | vips_gaussblur_bridge _ _ _
  | vips_sharpen_bridge _ _ _ _ _ _ _ | vips_extract_band_bridge _ _ _
  | vips_linear1_bridge _ _ _ | vips_add_bridge _ _
  | vips_multiply_bridge _ _ | vips_divide_bridge _ _
  | vips_ifthenelse_bridge _ _ _ _ | vips_bandjoin2_bridge _ _ => true
  | _ => false
  end.

Definition is_lifecycle_call (c : ccall) : bool :=
  match c with vips_init _ | vips_shutdown => true | _ => false end.

Definition is_tuning_call (c : ccall) : bool :=
  match c with
  | vips_concurrency_set _ | vips_enable_cache_set_trace => true
  | _ => false
  end.

(** *** The signatures the sniffer looks for

    [byte_at bytes i v]: the buffer has a byte at index [i], and it is
    [v]. *)
Definition byte_at (bytes : list byte) (i : nat) (v : byte) : bool :=
  match bytes !! i with
  | Some b => Byte.eqb b v
  | None => false
  end.

Definition png_signature (bytes : list byte) : bool :=
  byte_at bytes 0 x89 && byte_at bytes 1 x50 && byte_at bytes 2 x4e
  && byte_at bytes 3 x47.

Definition jpeg_signature (bytes : list byte) : bool :=
  byte_at bytes 0 xff && byte_at bytes 1 xd8 && byte_at bytes 2 xff.

Definition webp_signature (bytes : list byte) : bool :=
  byte_at bytes 8 x57 && byte_at bytes 9 x45 && byte_at bytes 10 x42
  && byte_at bytes 11 x50.

Definition tiff_signature (bytes : list byte) : bool :=
  (byte_at bytes 0 x49 && byte_at bytes 1 x49 && byte_at bytes 2 x2a
   && byte_at bytes 3 x00)
  || (byte_at bytes 0 x4d && byte_at bytes 1 x4d && byte_at bytes 2 x00
      && byte_at bytes 3 x2a).

(** The process once libvips has been asked which loader takes [bytes]
    and [free] has been entered on the buffer. *)
Definition probed (bytes : list byte) (w : world) : world :=
  let find :=
    vips_foreign_find_load_buffer bytes (Z.of_nat (List.length bytes)) in
  {| initialized := initialized w;
     SupportedImageTypes := SupportedImageTypes w;
     engine := snd (native (snd (native (engine w) find)) (free_slice bytes));
     log := log w ++ [Call find; Call (free_slice bytes)] |}.

End More.

(** A platform whose environment sets both [VIPS_CONCURRENCY] and
    [VIPS_TRACE]. *)
Definition demo_env (answer : @ccall demo_platform -> Z)
  : @Native demo_platform :=
  {| native := scripted answer : @vips demo_platform -> _;
     VIPS_MAJOR_VERSION := 8;
     VIPS_MINOR_VERSION := 4;
     VIPS_MAGICK_SUPPORT := 1;
     Getenv := fun _ => "4";
     MaxSize := 16383;
     ExtendBackground := 5;
     InterpretationSRGB := 22;
     Interpolator_String := fun _ => "bicubic";
     discoverSupportedImageTypes := fun w => (Ret tt, w);
     int_of_float64_overflow := - 2 ^ 63 |}.

(** Every call fails. *)
Definition all_fail (c : @ccall demo_platform) : Z := 1.

(** A process whose table of supported types is filled: JPEG loads and
    saves, TIFF loads only. *)
Definition w_warm : @world demo_platform :=
  @Build_world demo_platform true
    {[ JPEG := {| Load := true; Save := true |};
       TIFF := {| Load := true; Save := false |} ]} 0%nat [].

(** * Properties *)

Section Properties.
Context `{Native}.

(** ** type.go *)

Lemma ImageTypes_lookup (t : ImageType) :
  ImageTypes !! t =
    if decide (t = JPEG) then Some "jpeg"
    else if decide (t = PNG) then Some "png"
    else if decide (t = WEBP) then Some "webp"
    else if decide (t = TIFF) then Some "tiff"
    else if decide (t = MAGICK) then Some "magick"
    else None.
Proof.
  unfold ImageTypes.
  rewrite !lookup_insert, lookup_singleton.
  repeat case_decide; subst; try reflexivity; congruence.
Qed.

(** C10. [ImageTypeName] is other than "unknown" exactly on JPEG, PNG, WEBP,
    TIFF and MAGICK; on GIF, PDF and SVG it is "unknown", and
    [IsTypeSupported] and [IsTypeSupportedSave] answer false there in every
    state of the process, without consulting libvips. *)
Theorem ImageTypeName_unknown_outside_table :
  (forall t : ImageType,
     ImageTypeName t <> "unknown" <-> t ∈ [JPEG; PNG; WEBP; TIFF; MAGICK]) /\
  Forall (fun t : ImageType =>
            ImageTypeName t = "unknown" /\
            forall w : world,
              IsTypeSupported t w = (Ret false, w) /\
              IsTypeSupportedSave t w = (Ret false, w))
         [GIF; PDF; SVG].
Proof.
  split.
  - intros t. unfold ImageTypeName. rewrite ImageTypes_lookup.
    repeat case_decide; subst; simpl; split; intros Hx;
      try discriminate; try congruence;
      try (repeat (apply elem_of_cons; first [ left; reflexivity | right ]));
      repeat (apply elem_of_cons in Hx; destruct Hx as [Hx | Hx];
              [ congruence | ]);
      try (apply elem_of_nil in Hx; contradiction).
  - repeat constructor; intros; reflexivity.
Qed.

(** ** The type sniffer *)

(** The empty buffer is [UNKNOWN], and nothing is read. *)
Lemma vipsImageType_empty (w : world) : vipsImageType [] w = (Ret UNKNOWN, w).
Proof. reflexivity. Qed.

(** A non-empty buffer of fewer than nine bytes is never classified as
    [UNKNOWN]: either a PNG or JPEG signature matches, or an index past the
    end of the slice is read and the function panics. *)
Lemma vipsImageType_short_not_UNKNOWN (bytes : list byte) (w : world) :
  (0 < List.length bytes < 9)%nat ->
  fst (vipsImageType bytes w) = Ret PNG \/
  fst (vipsImageType bytes w) = Ret JPEG \/
  fst (vipsImageType bytes w) = Panic "index out of range".
Proof.
  intros Hlen.
  destruct bytes as
    [| b0 [| b1 [| b2 [| b3 [| b4 [| b5 [| b6 [| b7 [| b8 rest]]]]]]]]];
    simpl in Hlen; try lia;
    unfold vipsImageType, andM, orM, byte_is, index, bind, ret, panic;
    cbn [List.length Nat.eqb lookup list_lookup fst];
    repeat (match goal with
            | |- context [Byte.eqb ?a ?b] => destruct (Byte.eqb a b)
            end; cbn [fst]);
    auto.
Qed.

(** C2. On the one-byte buffer [00] the sniffer panics on an index past
    the end of the slice, and on the four-byte PNG signature and the
    three-byte JPEG signature it answers PNG and JPEG: three buffers shorter
    than 12 bytes on which it does not return UNKNOWN. *)
Theorem vipsImageType_short_buffers (w : world) :
  DetermineImageType [x00] w = (Panic "index out of range", w) /\
  DetermineImageType [x89; x50; x4e; x47] w = (Ret PNG, w) /\
  DetermineImageType [xff; xd8; xff] w = (Ret JPEG, w).
Proof. repeat split. Qed.

(** ** The lifecycle *)

(** Normalises a log equation: appends are reassociated and computed. *)
Ltac log_eq := cbn; rewrite <- ?app_assoc; cbn; try reflexivity.

(** [Initialize] stops on the version check exactly when the major number
    is at most 7 and the minor number below 40. *)
Lemma Initialize_version_check (w : world) :
  Initialize w = (Panic "unsupported libvips version!", w) <->
  VIPS_MAJOR_VERSION <= 7 /\ VIPS_MINOR_VERSION < 40.
Proof.
  unfold Initialize.
  destruct (VIPS_MAJOR_VERSION <=? 7) eqn:Hmaj;
    destruct (VIPS_MINOR_VERSION <? 40) eqn:Hmin; cbn [andb];
    try (split; [ | intros; lia ]); try (split; [ lia | reflexivity ]);
    unfold bind, defer, emit, C, C_, panic, ret, set_initialized; cbn;
    intros Hrun; exfalso;
    repeat match type of Hrun with
           | context [if ?b then _ else _] => destruct b; cbn in Hrun
           end;
    discriminate.
Qed.

(** [Shutdown] is guarded: in a process that is not initialized it takes
    and gives back the lock, and calls nothing. *)
Lemma Shutdown_not_initialized (w : world) :
  initialized w = false ->
  Shutdown w = (Ret tt, with_log w (log w ++ [m_Lock; m_Unlock])).
Proof.
  intros Hinit. unfold Shutdown, get_initialized.
  unfold bind, defer, emit, ret. cbn. rewrite Hinit. cbn.
  unfold with_log. cbn. rewrite <- app_assoc. reflexivity.
Qed.

(** C3 (as amended). With a supported version and a native [vips_init] that
    answers 0, a call to [Initialize] in a process already initialized
    returns and leaves [initialized] true, yet does all of the native
    initialisation again: it takes the lock, calls [vips_init] and sets the
    cache and concurrency limits. *)
Theorem Initialize_again_reinitializes (w : world) :
  let name := r_ptr (fst (native (engine w) (CString "bimg"))) in
  initialized w = true ->
  (VIPS_MAJOR_VERSION <=? 7) && (VIPS_MINOR_VERSION <? 40) = false ->
  r_int (fst (native (snd (native (engine w) (CString "bimg")))
                (vips_init name))) = 0 ->
  fst (Initialize w) = Ret tt /\
  initialized (snd (Initialize w)) = true /\
  SupportedImageTypes (snd (Initialize w)) = SupportedImageTypes w /\
  log (snd (Initialize w)) =
    log w ++
    [m_Lock; LockOSThread; Call (CString "bimg"); Call (vips_init name);
     Call (vips_cache_set_max_mem maxCacheMem);
     Call (vips_cache_set_max maxCacheSize)] ++
    (if String.eqb (Getenv "VIPS_CONCURRENCY") ""
     then [Call (vips_concurrency_set 1)] else []) ++
    (if negb (String.eqb (Getenv "VIPS_TRACE") "")
     then [Call vips_enable_cache_set_trace] else []) ++
    [UnlockOSThread; m_Unlock].
Proof.
  intros name Hinit Hversion Hstart. subst name.
  unfold Initialize. rewrite Hversion.
  unfold bind, defer, emit, C, C_, panic, ret, set_initialized. cbn.
  rewrite Hstart. cbn.
  destruct (String.eqb (Getenv "VIPS_CONCURRENCY") "");
    destruct (String.eqb (Getenv "VIPS_TRACE") ""); cbn;
    repeat split; log_eq.
Qed.

(** C8. With libvips 6.50 linked, a version below 7.40, [Initialize] passes
    the version check and starts the library. *)
Theorem Initialize_accepts_version_6_50 :
  fst (@Initialize demo_platform (demo 6 50 all_ok) w0) = Ret tt /\
  initialized (snd (@Initialize demo_platform (demo 6 50 all_ok) w0)) = true.
Proof. split; reflexivity. Qed.

(** ** Integer conversions *)

Lemma C_int_small (x : Z) : - 2 ^ 31 <= x < 2 ^ 31 -> C_int x = x.
Proof.
  intros Hx. unfold C_int.
  rewrite Z.mod_small by lia. lia.
Qed.

Lemma float64_of_int_small (x : Z) : 0 <= x < 2 ^ 53 -> float64_of_int x = x.
Proof.
  intros Hx. unfold float64_of_int.
  destruct (Z.eq_dec x 0) as [-> | Hnz]; [ reflexivity | ].
  rewrite Z.abs_eq by lia.
  assert (Z.log2 x < 53) by (apply Z.log2_lt_pow2; lia).
  destruct (Z.leb_spec (Z.log2 x + 1 - 53) 0); [ reflexivity | lia ].
Qed.

Lemma float64_of_int_negative (x : Z) : x < 0 -> float64_of_int x < 0.
Proof.
  intros Hx. unfold float64_of_int.
  destruct (Z.leb_spec (Z.log2 (Z.abs x) + 1 - 53) 0) as [Hle | Hgt];
    [ assumption | ].
  set (a := Z.abs x) in *. set (k := Z.log2 a + 1 - 53) in *.
  assert (Ha : 0 < a) by (subst a; lia).
  assert (Hulp : 0 < 2 ^ k) by (apply Z.pow_pos_nonneg; lia).
  assert (Hbig : 2 ^ k <= a).
  { transitivity (2 ^ Z.log2 a).
    - apply Z.pow_le_mono_r; lia.
    - apply Z.log2_spec; assumption. }
  assert (Hq : 1 <= a / 2 ^ k).
  { apply Z.div_le_lower_bound; lia. }
  rewrite Z.sgn_neg by assumption.
  destruct (_ || _); nia.
Qed.

Lemma max_negative (x : Z) : x < 0 -> max x = 0.
Proof.
  intros Hx. unfold max, math_Max.
  pose proof (float64_of_int_negative x Hx) as Hf.
  destruct (Z.ltb_spec (float64_of_int x) 0); [ reflexivity | lia ].
Qed.

Lemma max_small (x : Z) : 0 <= x < 2 ^ 53 -> max x = x.
Proof.
  intros Hx. unfold max, math_Max, int_of_float64.
  rewrite float64_of_int_small by assumption.
  destruct (Z.ltb_spec x 0); [ lia | ].
  destruct (Z.leb_spec (- 2 ^ 63) x); [ | lia ].
  destruct (Z.ltb_spec x (2 ^ 63)); [ reflexivity | lia ].
Qed.

(** What reaches C as a coordinate of the origin. *)
Lemma C_int_max (x : Z) : x < 2 ^ 31 -> C_int (max x) = Z.max x 0.
Proof.
  intros Hx. destruct (Z.lt_ge_cases x 0) as [Hneg | Hpos].
  - rewrite max_negative by assumption. rewrite Z.max_r by lia. reflexivity.
  - rewrite max_small by lia. rewrite Z.max_l by lia.
    apply C_int_small. lia.
Qed.

(** ** The operations *)

(** Runs an operation on a symbolic process: the Go control flow is
    unfolded, and the answer of the native call decides the branch. *)
Ltac run_go :=
  unfold out_or_error, catchVipsError, vipsHasAlpha,
    vipsColourspaceIsSupported, defer, bind, C_, C, ret, emit;
  cbn.

Ltac on_status :=
  match goal with
  | |- context [negb (r_int ?r =? 0)] =>
      destruct (Z.eqb_spec (r_int r) 0); cbn
  end.

(** Every list is within its reverse behind any prefix. *)
Lemma submseteq_behind_rev (own l : list ptr) : l ⊆+ own ++ rev l.
Proof.
  apply submseteq_inserts_l. apply Permutation_submseteq.
  apply Permutation_rev.
Qed.

(** C1. Every operation returns, and in the events it adds to the log each
    of its input handles is released exactly once, last argument first,
    whether a new handle or an error is returned.  Sixteen operations
    release their inputs themselves, through [g_object_unref];
    [vipsWatermark] hands nothing to [g_object_unref], and its image is
    consumed by the [vips_watermark] bridge it is handed to.  [vipsAffine]
    releases, before its input, the interpolator it created, and nothing
    else is released by any operation. *)
Theorem operations_release_inputs (op : operation) (w : world) :
  exists r es,
    fst (run op w) = Ret r /\
    log (snd (run op w)) = log w ++ es /\
    released es =
      match op with
      | Affine _ _ _ i => created_interpolator w i :: rev (inputs op)
      | _ => rev (inputs op)
      end /\
    unrefs es = (if is_Mark op then [] else released es) /\
    releases_inputs op w.
Proof.
  assert (Hclaim : forall es own,
            log (snd (run op w)) = log w ++ es ->
            released es = own ++ rev (inputs op) ->
            releases_inputs op w).
  { intros es own Hlog Hrel. exists es. split; [ exact Hlog | ].
    rewrite Hrel. apply submseteq_behind_rev. }
  revert Hclaim.
  destruct op; cbn [run is_Mark is_Affine inputs rev app];
    unfold created_interpolator;
    unfold vipsRotate, vipsFlip, vipsZoom, vipsExtract, vipsEmbed,
      vipsInsert, vipsAffine, vipsGaussianBlur, vipsSharpen,
      vipsExtractBand, vipsLinear1, vipsAdd, vipsMultiply, vipsDivide,
      vipsIthenelse, vipsBandjoin2, vipsWatermark;
    try match goal with
        | |- context [(?a >? MaxSize) || ?b] =>
            destruct ((a >? MaxSize) || b)
        end;
    run_go; try on_status; intros Hclaim;
    (eexists; eexists; split; [ reflexivity | ];
     split; [ rewrite <- ?app_assoc; cbn; reflexivity | ];
     split; [ reflexivity | ];
     split; [ reflexivity | ];
     first [ eapply (Hclaim _ []);
             [ rewrite <- ?app_assoc; cbn; reflexivity | reflexivity ]
           | eapply (Hclaim _ [_]);
             [ rewrite <- ?app_assoc; cbn; reflexivity | reflexivity ] ]).
Qed.

(** C4. When the width or the height asked for exceeds [MaxSize],
    [vipsExtract] returns the error "Maximum image size exceeded"; the one
    event it adds to the log is the release of the input, so the native
    extract is not called. *)
Theorem vipsExtract_size_exceeded
  (image : ptr) (left top width height : Z) (w : world) :
  width > MaxSize \/ height > MaxSize ->
  fst (vipsExtract image left top width height w) =
    Ret (nil_ptr, errors_New "Maximum image size exceeded") /\
  log (snd (vipsExtract image left top width height w)) =
    log w ++ [Call (g_object_unref image)].
Proof.
  intros Hsize. unfold vipsExtract.
  assert (Hguard : (width >? MaxSize) || (height >? MaxSize) = true).
  { apply orb_true_iff. destruct Hsize; [ left | right ]; lia. }
  rewrite Hguard. run_go. split; reflexivity.
Qed.

(** C5. Within [MaxSize], [vipsExtract] calls the native extract once, as
    the first thing it does, on an origin whose negative coordinates are
    replaced by 0: a coordinate below 2^31 reaches C as its maximum with 0.
    A negative coordinate is no cause of error: the operation fails exactly
    when the native call answers other than 0. *)
Theorem vipsExtract_clamps_origin
  (image : ptr) (left top width height : Z) (w : world) :
  width <= MaxSize -> height <= MaxSize ->
  exists l t r es,
    fst (vipsExtract image left top width height w) = Ret r /\
    log (snd (vipsExtract image left top width height w)) =
      log w ++
      Call (vips_extract_area_bridge image l t (C_int width) (C_int height))
        :: es /\
    List.filter is_extract_area (calls es) = [] /\
    (left < 0 -> l = 0) /\ (top < 0 -> t = 0) /\
    (left < 2 ^ 31 -> l = Z.max left 0) /\
    (top < 2 ^ 31 -> t = Z.max top 0) /\
    (snd r = None <->
     r_int (fst (native (engine w)
              (vips_extract_area_bridge image l t (C_int width)
                 (C_int height)))) = 0).
Proof.
  intros Hw Hh. unfold vipsExtract.
  assert (Hguard : (width >? MaxSize) || (height >? MaxSize) = false).
  { apply orb_false_iff. split; lia. }
  rewrite Hguard.
  exists (C_int (max left)), (C_int (max top)).
  run_go; on_status;
    (eexists; eexists; split; [ reflexivity | ];
     split; [ rewrite <- ?app_assoc; cbn; reflexivity | ];
     split; [ reflexivity | ];
     repeat split; intros;
     try (rewrite max_negative by assumption; reflexivity);
     try (apply C_int_max; assumption);
     try assumption; try discriminate; try contradiction).
Qed.

(** C7 (as amended). [vipsEmbed] calls the native embed once, as the first
    thing it does.  An extend mode above 5 is replaced by
    [ExtendBackground]; a mode of at most 5 reaches C as it is, the modes
    0 to 5 and the negative ones alike.  The operation fails exactly when
    the native call answers other than 0. *)
Theorem vipsEmbed_extend
  (input : ptr) (left top width height extend : Z) (w : world) :
  exists e r es,
    fst (vipsEmbed input left top width height extend w) = Ret r /\
    log (snd (vipsEmbed input left top width height extend w)) =
      log w ++
      Call (vips_embed_bridge input (C_int left) (C_int top) (C_int width)
              (C_int height) e) :: es /\
    e = C_int (if extend >? 5 then ExtendBackground else extend) /\
    (if (- 2 ^ 31 <=? extend) && (extend <=? 5) then e = extend
     else if extend >? 5 then e = C_int ExtendBackground
     else e = C_int extend) /\
    (snd r = None <->
     r_int (fst (native (engine w)
              (vips_embed_bridge input (C_int left) (C_int top)
                 (C_int width) (C_int height) e))) = 0).
Proof.
  unfold vipsEmbed.
  exists (C_int (if extend >? 5 then ExtendBackground else extend)).
  run_go; on_status;
    (eexists; eexists; split; [ reflexivity | ];
     split; [ rewrite <- ?app_assoc; cbn; reflexivity | ];
     split; [ reflexivity | ];
     split;
     [ destruct (Z.leb_spec (- 2 ^ 31) extend);
       destruct (Z.leb_spec extend 5);
       destruct (Z.gtb_spec extend 5); cbn [andb];
       try lia; try reflexivity; apply C_int_small; lia
     | split; intros; try assumption; try discriminate;
       try contradiction; try reflexivity ]).
Qed.

(** ** Saving *)

Ltac on_branches :=
  repeat match goal with
         | |- context [if ?b then _ else _] => destruct b eqn:?; cbn
         end.

(** [vipsPreSave] always returns; it calls neither the flatten bridge nor
    an encoder, and leaves the type, quality, compression and interlace
    options as they were. *)
Lemma vipsPreSave_run (image : ptr) (o : vipsSaveOptions) (w : world) :
  exists r es,
    fst (vipsPreSave image o w) = Ret r /\
    log (snd (vipsPreSave image o w)) = log w ++ es /\
    List.filter is_flatten (calls es) = [] /\
    omap encoder_of (calls es) = [] /\
    unrefs es = [] /\
    Type_ (fst (fst r)) = Type_ o.
Proof.
  unfold vipsPreSave. run_go. on_branches;
    (eexists; eexists; split; [ reflexivity | ];
     split; [ rewrite <- ?app_assoc; cbn; reflexivity | ];
     repeat split).
Qed.

(** C6 (as amended). Neither [vipsPreSave] nor [vipsSave] flattens: the
    events they add to the log hold no call of the flatten bridge, whether
    the image has alpha or not.  Flattening is [vipsFlattenBackground]: it
    asks whether the image has alpha; if not, it returns the image as it
    is; if so, it calls the flatten bridge on the background given and, when
    that answers 0, releases the image and returns the new one. *)
Theorem vipsPreSave_does_not_flatten
  (image : ptr) (o : vipsSaveOptions) (background : Color) (w : world) :
  let bg := (R background, G background, B background) in
  let flattened :=
    fst (native (snd (native (engine w) (has_alpha_channel image)))
           (vips_flatten_background_brigde image bg)) in
  (exists es,
      log (snd (vipsPreSave image o w)) = log w ++ es /\
      List.filter is_flatten (calls es) = []) /\
  (exists es,
      log (snd (vipsSave image o w)) = log w ++ es /\
      List.filter is_flatten (calls es) = []) /\
  if has_alpha w image then
    exists out err es,
      fst (vipsFlattenBackground image background w) = Ret (out, err) /\
      log (snd (vipsFlattenBackground image background w)) =
        log w ++ Call (has_alpha_channel image)
              :: Call (vips_flatten_background_brigde image bg) :: es /\
      if r_int flattened =? 0
      then out = r_ptr flattened /\ err = None /\
           es = [Call (g_object_unref image)]
      else out = nil_ptr /\ err <> None /\ unrefs es = []
  else
    fst (vipsFlattenBackground image background w) = Ret (image, None) /\
    log (snd (vipsFlattenBackground image background w)) =
      log w ++ [Call (has_alpha_channel image)].
Proof.
  intros bg flattened. subst bg flattened. repeat split.
  - destruct (vipsPreSave_run image o w) as (r & es & _ & Hlog & Hflat & _).
    exists es. split; assumption.
  - unfold vipsSave, vipsPreSave, encode. run_go. on_branches;
      (eexists; split; [ rewrite <- ?app_assoc; cbn; reflexivity | ];
       reflexivity).
  - unfold has_alpha, vipsFlattenBackground. run_go.
    destruct (r_int (fst (native (engine w) (has_alpha_channel image))) >? 0);
      cbn; [ | split; reflexivity ].
    destruct (Z.eqb_spec
                (r_int (fst (native
                   (snd (native (engine w) (has_alpha_channel image)))
                   (vips_flatten_background_brigde image
                      (R background, G background, B background))))) 0);
      cbn;
      (eexists; eexists; eexists; split; [ reflexivity | ];
       split; [ rewrite <- ?app_assoc; cbn; reflexivity | ];
       repeat split; discriminate).
Qed.

(** C9. Once [vipsPreSave] has returned an image without error, [vipsSave]
    calls exactly one encoder, on that image: the WEBP encoder when the
    type is WEBP, the PNG encoder when it is PNG, and the JPEG encoder for
    every other type. *)
Theorem vipsSave_encoder_dispatch
  (image : ptr) (o o' : vipsSaveOptions) (tmpImage : ptr) (w : world) :
  fst (vipsPreSave image o w) = Ret (o', tmpImage, None) ->
  exists enc es,
    log (snd (vipsSave image o w)) = log w ++ es /\
    omap encoder_of (calls es) = [(enc, tmpImage)] /\
    (Type_ o = WEBP -> enc = WEBP) /\
    (Type_ o = PNG -> enc = PNG) /\
    (Type_ o <> WEBP -> Type_ o <> PNG -> enc = JPEG).
Proof.
  unfold vipsSave, vipsPreSave, encode. run_go. intros Hpre.
  exists (if Type_ o =? WEBP then WEBP else if Type_ o =? PNG then PNG
          else JPEG).
  assert (Hkind :
    (Type_ o = WEBP ->
       (if Type_ o =? WEBP then WEBP else if Type_ o =? PNG then PNG
        else JPEG) = WEBP) /\
    (Type_ o = PNG ->
       (if Type_ o =? WEBP then WEBP else if Type_ o =? PNG then PNG
        else JPEG) = PNG) /\
    (Type_ o <> WEBP -> Type_ o <> PNG ->
       (if Type_ o =? WEBP then WEBP else if Type_ o =? PNG then PNG
        else JPEG) = JPEG)).
  { destruct (Z.eqb_spec (Type_ o) WEBP) as [-> | ?];
      [ repeat split; intros; congruence | ].
    destruct (Z.eqb_spec (Type_ o) PNG) as [-> | ?];
      repeat split; intros; congruence. }
  revert Hpre Hkind.
  on_branches; intros Hpre Hkind; try discriminate;
    injection Hpre as <- <-;
    (eexists; split; [ rewrite <- ?app_assoc; cbn; reflexivity | ];
     split; [ cbn; reflexivity | exact Hkind ]).
Qed.

End Properties.

(** * Instances of the properties on the concrete platform *)

(** C3, witness: libvips 8.4, a second call after a first one. *)
Lemma Initialize_again_reinitializes_witness :
  let N := demo 8 4 all_ok in
  let w1 := snd (@Initialize demo_platform N w0) in
  initialized w1 = true /\
  fst (@Initialize demo_platform N w1) = Ret tt /\
  initialized (snd (@Initialize demo_platform N w1)) = true.
Proof.
  intros N w1.
  pose proof (@Initialize_again_reinitializes demo_platform N w1
                eq_refl eq_refl eq_refl) as (Hret & Hflag & _).
  repeat split; assumption.
Defined.

(** C3, counterexample: on libvips 8.4 the second of two calls in sequence
    is not a no-op; the process changes and [vips_init] has run twice. *)
Lemma Initialize_twice_runs_vips_init_twice :
  let N := demo 8 4 all_ok in
  let w1 := snd (@Initialize demo_platform N w0) in
  let w2 := snd (@Initialize demo_platform N w1) in
  initialized w1 = true /\
  w2 <> w1 /\
  List.length (List.filter is_vips_init (calls (log w1))) = 1%nat /\
  List.length (List.filter is_vips_init (calls (log w2))) = 2%nat.
Proof.
  cbv zeta. repeat split.
  intros E. apply (f_equal log) in E. vm_compute in E. discriminate.
Qed.

(** C4, witness: a width of 20000 against a [MaxSize] of 16383. *)
Lemma vipsExtract_size_exceeded_witness :
  fst (@vipsExtract demo_platform (demo 8 4 all_ok) 7%N 0 0 20000 100 w0) =
    Ret (nil_ptr, errors_New "Maximum image size exceeded") /\
  log (snd (@vipsExtract demo_platform (demo 8 4 all_ok) 7%N 0 0 20000 100
              w0)) =
    [Call (g_object_unref 7%N)].
Proof.
  apply (@vipsExtract_size_exceeded demo_platform (demo 8 4 all_ok)
           7%N 0 0 20000 100 w0).
  left. reflexivity.
Defined.

(** C5, witness: the crop at (-5, -5) of 100 by 100. *)
Lemma vipsExtract_clamps_origin_witness :
  exists l t r es,
    fst (@vipsExtract demo_platform (demo 8 4 all_ok) 7%N (-5) (-5) 100 100
           w0) = Ret r /\
    log (snd (@vipsExtract demo_platform (demo 8 4 all_ok) 7%N (-5) (-5)
                100 100 w0)) =
      log w0 ++
      Call (vips_extract_area_bridge 7%N l t (C_int 100) (C_int 100)) :: es /\
    l = 0 /\ t = 0 /\ snd r = None.
Proof.
  destruct (@vipsExtract_clamps_origin demo_platform (demo 8 4 all_ok)
              7%N (-5) (-5) 100 100 w0)
    as (l & t & r & es & Hret & Hlog & _ & Hl & Ht & _ & _ & Herr);
    [ cbn; lia | cbn; lia | ].
  exists l, t, r, es.
  repeat split; try assumption;
    [ apply Hl; lia | apply Ht; lia | apply Herr; reflexivity ].
Defined.

(** C6, counterexample: image 7 has alpha, and [vipsPreSave] converts its
    colourspace and stops there. *)
Lemma vipsPreSave_leaves_alpha :
  ~ @presave_flattens demo_platform (demo 8 4 with_alpha) 7%N
      (demo_options PNG) w0.
Proof.
  intros Hclaim.
  destruct (Hclaim eq_refl) as (es & h & bg & Hlog & Hin).
  vm_compute in Hlog. subst es.
  cbn in Hin. intuition discriminate.
Qed.

(** C7, counterexample: the extend mode -1 is outside the modes 0 to 5 of
    libvips, and reaches the native embed as -1, not as
    [ExtendBackground]. *)
Lemma vipsEmbed_negative_extend :
  calls (log (snd (@vipsEmbed demo_platform (demo 8 4 all_ok)
                     7%N 0 0 10 10 (-1) w0))) =
    [vips_embed_bridge 7%N 0 0 10 10 (-1); g_object_unref 7%N] /\
  @ExtendBackground demo_platform (demo 8 4 all_ok) = 5 /\
  fst (@vipsEmbed demo_platform (demo 8 4 all_ok) 7%N 0 0 10 10 (-1) w0) =
    Ret (100%N, None).
Proof. repeat split. Qed.

(** C9, witness: a GIF target is encoded by the JPEG encoder. *)
Lemma vipsSave_encoder_dispatch_witness :
  exists es,
    log (snd (@vipsSave demo_platform (demo 8 4 with_alpha) 7%N
                (demo_options GIF) w0)) = es /\
    omap encoder_of (calls es) = [(JPEG, 101%N)].
Proof.
  destruct (@vipsSave_encoder_dispatch demo_platform (demo 8 4 with_alpha)
              7%N (demo_options GIF)
              (@Build_vipsSaveOptions 80 6 GIF false false 22) 101%N w0
              eq_refl)
    as (enc & es & Hlog & Henc & _ & _ & Hjpeg).
  exists es. split; [ exact Hlog | ].
  rewrite Henc, Hjpeg; [ reflexivity | discriminate | discriminate ].
Defined.

(** * More properties of the two files *)

Section MoreProperties.
Context `{Native}.

Ltac go_run :=
  unfold out_or_error, catchVipsError, vipsHasAlpha,
    vipsColourspaceIsSupported, get_initialized, set_initialized, with_log,
    defer, bind, C_, C, ret, emit, panic;
  cbn.

Ltac go_status :=
  match goal with
  | |- context [negb (r_int ?r =? 0)] =>
      destruct (Z.eqb_spec (r_int r) 0); cbn
  end.

Ltac go_branches :=
  repeat match goal with
         | |- context [negb (?x =? ?y)] => destruct (x =? y) eqn:?; cbn
         | |- context [if ?b then _ else _] => destruct b eqn:?; cbn
         end.

Ltac log_tail := rewrite <- ?app_assoc; cbn; reflexivity.

(** X1. [Shutdown] is idempotent.  From any process it returns with
    [initialized] false, having called [vips_shutdown] once if the process
    was initialized and not at all otherwise; a second [Shutdown] right
    after it takes and gives back the lock and calls nothing. *)
Theorem Shutdown_twice (w : world) :
  let w1 := snd (Shutdown w) in
  let w2 := snd (Shutdown w1) in
  fst (Shutdown w) = Ret tt /\
  initialized w1 = false /\
  log w1 =
    log w ++ m_Lock ::
    (if initialized w then [Call vips_shutdown] else []) ++ [m_Unlock] /\
  fst (Shutdown w1) = Ret tt /\
  initialized w2 = false /\
  engine w2 = engine w1 /\
  log w2 = log w1 ++ [m_Lock; m_Unlock].
Proof.
  unfold Shutdown. go_run.
  destruct (initialized w) eqn:Hinit; cbn; rewrite ?Hinit; cbn;
    repeat split; try assumption; log_tail.
Qed.

(** X2. When the version is accepted and the native [vips_init] answers
    other than 0, [Initialize] panics with "unable to start vips!"; the
    deferred calls still run, so the OS thread and the lock are given back,
    [initialized] is left as it was and no cache limit is set. *)
Theorem Initialize_start_failure (w : world) :
  let name := r_ptr (fst (native (engine w) (CString "bimg"))) in
  (VIPS_MAJOR_VERSION <=? 7) && (VIPS_MINOR_VERSION <? 40) = false ->
  r_int (fst (native (snd (native (engine w) (CString "bimg")))
                (vips_init name))) <> 0 ->
  fst (Initialize w) = Panic "unable to start vips!" /\
  initialized (snd (Initialize w)) = initialized w /\
  log (snd (Initialize w)) =
    log w ++ [m_Lock; LockOSThread; Call (CString "bimg");
              Call (vips_init name); UnlockOSThread; m_Unlock].
Proof.
  intros name Hversion Hstart. subst name.
  unfold Initialize. rewrite Hversion. go_run.
  destruct (Z.eqb_spec
    (r_int (fst (native (snd (native (engine w) (CString "bimg")))
       (vips_init (r_ptr (fst (native (engine w) (CString "bimg")))))))) 0);
    [ contradiction | ].
  cbn. repeat split. log_tail.
Qed.

(** X3. [Initialize] then [Shutdown]: from any process, with the version
    accepted and [vips_init] answering 0, the pair leaves [initialized]
    false, calls [vips_init] and then [vips_shutdown], once each, and takes
    and gives back every lock in nested order. *)
Theorem Initialize_then_Shutdown (w : world) :
  let name := r_ptr (fst (native (engine w) (CString "bimg"))) in
  let w1 := snd (Initialize w) in
  (VIPS_MAJOR_VERSION <=? 7) && (VIPS_MINOR_VERSION <? 40) = false ->
  r_int (fst (native (snd (native (engine w) (CString "bimg")))
                (vips_init name))) = 0 ->
  fst (Shutdown w1) = Ret tt /\
  initialized w1 = true /\
  initialized (snd (Shutdown w1)) = false /\
  exists es,
    log (snd (Shutdown w1)) = log w ++ es /\
    List.filter is_lifecycle_call (calls es) = [vips_init name; vips_shutdown] /\
    List.filter (fun e => match e with Call _ => false | _ => true end) es =
      [m_Lock; LockOSThread; UnlockOSThread; m_Unlock; m_Lock; m_Unlock].
Proof.
  intros name w1 Hversion Hstart. subst name w1.
  unfold Shutdown, Initialize. rewrite Hversion. go_run.
  rewrite Hstart. cbn.
  destruct (String.eqb (Getenv "VIPS_CONCURRENCY") "");
    destruct (String.eqb (Getenv "VIPS_TRACE") ""); cbn;
    (repeat split; eexists; split; [ log_tail | split; reflexivity ]).
Qed.

(** X4. When [Initialize] returns, the environment decides the tuning:
    [vips_concurrency_set 1] is called exactly when [VIPS_CONCURRENCY] is
    empty, and cache tracing is enabled exactly when [VIPS_TRACE] is not. *)
Theorem Initialize_tuning_follows_environment (w : world) :
  fst (Initialize w) = Ret tt ->
  exists es,
    log (snd (Initialize w)) = log w ++ es /\
    List.filter is_tuning_call (calls es) =
      (if String.eqb (Getenv "VIPS_CONCURRENCY") ""
       then [vips_concurrency_set 1] else []) ++
      (if String.eqb (Getenv "VIPS_TRACE") ""
       then [] else [vips_enable_cache_set_trace]).
Proof.
  unfold Initialize.
  destruct ((VIPS_MAJOR_VERSION <=? 7) && (VIPS_MINOR_VERSION <? 40));
    [ discriminate | ].
  go_run. go_status; [ | discriminate ].
  intros _.
  destruct (String.eqb (Getenv "VIPS_CONCURRENCY") "");
    destruct (String.eqb (Getenv "VIPS_TRACE") ""); cbn;
    (eexists; split; [ log_tail | reflexivity ]).
Qed.


Ltac unfold_ops :=
  unfold vipsRotate, vipsFlip, vipsZoom, vipsExtract, vipsEmbed,
    vipsInsert, vipsAffine, vipsGaussianBlur, vipsSharpen,
    vipsExtractBand, vipsLinear1, vipsAdd, vipsMultiply, vipsDivide,
    vipsIthenelse, vipsBandjoin2, vipsWatermark;
  try match goal with
      | |- context [(?a >? MaxSize) || ?b] =>
          destruct ((a >? MaxSize) || b)
      end.

(** X5. The failure policy of the operations.  Every operation returns a
    pair; without error, the error channel of libvips is not touched; with
    an error, the image returned is nil, and either the error channel was
    read, cleared and the thread shut down, once and in that order, or the
    error is the size refusal of [vipsExtract], made before any native
    operation. *)
Theorem operations_failure_policy (op : operation) (w : world) :
  exists out err es,
    fst (run op w) = Ret (out, err) /\
    log (snd (run op w)) = log w ++ es /\
    match err with
    | None => List.filter is_error_channel (calls es) = []
    | Some msg =>
        out = nil_ptr /\
        (List.filter is_error_channel (calls es) =
           [vips_error_buffer; vips_error_clear; vips_thread_shutdown] \/
         msg = "Maximum image size exceeded" /\
         List.filter is_error_channel (calls es) = [] /\
         List.filter is_operation_bridge (calls es) = [])
    end.
Proof.
  destruct op; cbn [run]; unfold_ops; go_run; try go_status;
    (eexists; eexists; eexists; split; [ reflexivity | ];
     split; [ log_tail | ]; cbn;
     first [ reflexivity
           | split; [ reflexivity | left; reflexivity ]
           | split; [ reflexivity | right; repeat split ] ]).
Qed.

(** X6. No operation retries: the native operation behind it is called
    at most once, and exactly once when no error is returned.  No
    operation touches [initialized] or the table of supported types. *)
Theorem operations_call_bridge_once (op : operation) (w : world) :
  exists r es,
    fst (run op w) = Ret r /\
    log (snd (run op w)) = log w ++ es /\
    (List.length (List.filter is_operation_bridge (calls es)) <= 1)%nat /\
    (snd r = None ->
     List.length (List.filter is_operation_bridge (calls es)) = 1%nat) /\
    initialized (snd (run op w)) = initialized w /\
    SupportedImageTypes (snd (run op w)) = SupportedImageTypes w.
Proof.
  destruct op; cbn [run]; unfold_ops; go_run; try go_status;
    (eexists; eexists; split; [ reflexivity | ];
     split; [ log_tail | ]; cbn;
     repeat split; try lia; intros; try discriminate).
Qed.

(** X7. Every operation frees the C strings it allocated, and nothing
    else: the pointers handed to [free] are those that [CString] returned,
    last allocated first, on success and on failure.  [vipsWatermark]
    allocates two, [vipsAffine] one, the others none. *)
Theorem operations_free_their_strings (op : operation) (w : world) :
  exists es,
    log (snd (run op w)) = log w ++ es /\
    frees (calls es) = rev (cstrings (engine w) (calls es)) /\
    List.length (frees (calls es)) =
      match op with
      | Mark _ _ => 2%nat
      | Affine _ _ _ _ => 1%nat
      | _ => 0%nat
      end.
Proof.
  destruct op; cbn [run]; unfold_ops; go_run; try go_status;
    (eexists; split; [ log_tail | ]; cbn; split; reflexivity).
Qed.


(** X8. What [vipsSave] releases.  When the colourspace is converted, the
    converted image and then the input are released; when the conversion
    fails, the input alone; and when the colourspace is not supported,
    [vipsPreSave] hands the input back and the input is released twice. *)
Theorem vipsSave_releases (image : ptr) (o : vipsSaveOptions) (w : world) :
  let v1 :=
    if NoProfile o then snd (native (engine w) (remove_profile image))
    else engine w in
  let interpretation :=
    C_int (if Interpretation o =? 0 then InterpretationSRGB
           else Interpretation o) in
  let supported :=
    r_int (fst (native v1 (vips_colourspace_issupported_bridge image)))
    =? 1 in
  let converted :=
    fst (native
           (snd (native v1 (vips_colourspace_issupported_bridge image)))
           (vips_colourspace_bridge image interpretation)) in
  exists es,
    log (snd (vipsSave image o w)) = log w ++ es /\
    unrefs es =
      if supported
      then if r_int converted =? 0 then [r_ptr converted; image]
           else [image]
      else [image; image].
Proof.
  cbv zeta. unfold vipsSave, vipsPreSave, encode. go_run.
  destruct (NoProfile o); destruct (Interpretation o =? 0); cbn;
    go_branches; (eexists; split; [ log_tail | reflexivity ]).
Qed.

(** X9. The result of [vipsSave].  When [vipsPreSave] fails, its error
    is returned with no bytes and no encoder runs.  Otherwise one encoder
    runs, on the image of [vipsPreSave]: when it answers 0 the bytes
    returned are the encoder's, the encoder's own buffer is handed to
    [g_free], once, and the error state of libvips is cleared; when it
    answers otherwise no bytes are returned, nothing is handed to [g_free]
    and the error channel is read, cleared and the thread shut down,
    once. *)
Theorem vipsSave_result (image : ptr) (o : vipsSaveOptions) (w : world) :
  exists buf err es,
    fst (vipsSave image o w) = Ret (buf, err) /\
    log (snd (vipsSave image o w)) = log w ++ es /\
    match fst (vipsPreSave image o w) with
    | Ret (_, tmpImage, None) =>
        exists c kind,
          List.filter (fun c => bool_decide (is_Some (encoder_of c)))
            (calls es) = [c] /\
          encoder_of c = Some (kind, tmpImage) /\
          let encoded :=
            fst (native (engine (snd (vipsPreSave image o w))) c) in
          if r_int encoded =? 0
          then buf = r_bytes encoded /\ err = None /\
               g_frees (calls es) = [r_ptr encoded] /\
               List.filter is_error_channel (calls es) = [vips_error_clear]
          else buf = [] /\ err <> None /\
               g_frees (calls es) = [] /\
               List.filter is_error_channel (calls es) =
                 [vips_error_buffer; vips_error_clear; vips_thread_shutdown]
    | Ret (_, _, Some e) =>
        buf = [] /\ err = Some e /\
        g_frees (calls es) = [] /\
        omap encoder_of (calls es) = []
    | Panic _ => False
    end.
Proof.
  unfold vipsSave, vipsPreSave, encode. go_run.
  go_branches;
    (eexists; eexists; eexists; split; [ reflexivity | ];
     split; [ log_tail | ]; cbn;
     first [ repeat split; reflexivity
           | eexists; eexists; split; [ reflexivity | ];
             split; [ reflexivity | ];
             cbn in *;
             repeat match goal with
                    | Hx : (_ =? _) = _ |- _ => rewrite Hx
                    end;
             repeat split; first [ reflexivity | discriminate ] ]).
Qed.

(** X10. [vipsPreSave] returns the options with the interpretation
    resolved (sRGB when it was 0), strips the profile exactly when
    [NoProfile] is set, and releases nothing.  When libvips says the
    colourspace of the input is not supported, the input is handed back
    as it is and no conversion is asked for.  When it is supported, one
    conversion of the input to the resolved interpretation is asked for:
    the image it yields is returned when it answers 0, and nil with an
    error when it does not. *)
Theorem vipsPreSave_result (image : ptr) (o : vipsSaveOptions) (w : world) :
  let target :=
    if Interpretation o =? 0 then InterpretationSRGB else Interpretation o in
  let v1 :=
    if NoProfile o then snd (native (engine w) (remove_profile image))
    else engine w in
  let supported :=
    r_int (fst (native v1 (vips_colourspace_issupported_bridge image)))
    =? 1 in
  let converted :=
    fst (native
           (snd (native v1 (vips_colourspace_issupported_bridge image)))
           (vips_colourspace_bridge image (C_int target))) in
  let conversions (cs : list ccall) :=
    List.filter
      (fun c => match c with
                | vips_colourspace_bridge _ _ => true
                | _ => false
                end) cs in
  exists o' out err es,
    fst (vipsPreSave image o w) = Ret (o', out, err) /\
    log (snd (vipsPreSave image o w)) = log w ++ es /\
    Interpretation o' = target /\
    unrefs es = [] /\
    List.filter
      (fun c => match c with remove_profile _ => true | _ => false end)
      (calls es) = (if NoProfile o then [remove_profile image] else []) /\
    if supported then
      conversions (calls es) =
        [vips_colourspace_bridge image (C_int target)] /\
      if r_int converted =? 0
      then out = r_ptr converted /\ err = None /\
           List.filter is_error_channel (calls es) = []
      else out = nil_ptr /\ err <> None /\
           List.filter is_error_channel (calls es) =
             [vips_error_buffer; vips_error_clear; vips_thread_shutdown]
    else
      out = image /\ err = None /\ conversions (calls es) = [] /\
      List.filter is_error_channel (calls es) = [].
Proof.
  cbv zeta. unfold vipsPreSave. go_run.
  destruct (NoProfile o); destruct (Interpretation o =? 0); cbn;
    go_branches;
    (eexists; eexists; eexists; eexists; split; [ reflexivity | ];
     split; [ log_tail | ]; cbn;
     repeat split; first [ reflexivity | discriminate ]).
Qed.

(** X11. [getImageBuffer] encodes as JPEG at quality 100, not interlaced,
    and never releases the image.  On success it returns the encoder's
    bytes, then clears the error state and frees the encoder's buffer; on
    failure it returns no bytes and frees nothing. *)
Theorem getImageBuffer_result (image : ptr) (w : world) :
  let saved := fst (native (engine w) (vips_jpegsave_bridge image 1 100 0)) in
  exists buf err es,
    fst (getImageBuffer image w) = Ret (buf, err) /\
    log (snd (getImageBuffer image w)) =
      log w ++ Call (vips_jpegsave_bridge image 1 100 0) :: es /\
    unrefs es = [] /\
    if r_int saved =? 0
    then buf = r_bytes saved /\ err = None /\
         es = [Call vips_error_clear; Call (g_free (r_ptr saved))]
    else buf = [] /\ err <> None /\
         es = [Call vips_error_buffer; Call vips_error_clear;
               Call vips_thread_shutdown].
Proof.
  cbv zeta. unfold getImageBuffer. go_run. go_status.
  - eexists; eexists; eexists; split; [ reflexivity | ].
    split; [ log_tail | ]. repeat split.
  - eexists; eexists; eexists; split; [ reflexivity | ].
    split; [ log_tail | ]. repeat split. discriminate.
Qed.


Lemma byte_is_in_range (bytes : list byte) (i : nat) (v : byte) (w : world) :
  (i < List.length bytes)%nat ->
  byte_is bytes i v w = (Ret (byte_at bytes i v), w).
Proof.
  intros Hi. unfold byte_is, byte_at, index, bind, ret.
  destruct (lookup_lt_is_Some_2 bytes i Hi) as [b Hb].
  rewrite Hb. reflexivity.
Qed.

Lemma andM_pure (a b : M bool) (x y : bool) (w : world) :
  a w = (Ret x, w) -> b w = (Ret y, w) -> andM a b w = (Ret (x && y), w).
Proof.
  intros Ha Hb. unfold andM, bind, ret. rewrite Ha.
  destruct x; [ exact Hb | reflexivity ].
Qed.

Lemma orM_pure (a b : M bool) (x y : bool) (w : world) :
  a w = (Ret x, w) -> b w = (Ret y, w) -> orM a b w = (Ret (x || y), w).
Proof.
  intros Ha Hb. unfold orM, bind, ret. rewrite Ha.
  destruct x; [ reflexivity | exact Hb ].
Qed.

Lemma vipsImageType_long (bytes : list byte) (w : world) :
  (12 <= List.length bytes)%nat ->
  vipsImageType bytes w =
    if png_signature bytes then (Ret PNG, w)
    else if jpeg_signature bytes then (Ret JPEG, w)
    else if webp_signature bytes then (Ret WEBP, w)
    else if tiff_signature bytes then (Ret TIFF, w)
    else if HasMagickSupport then
      (Panic "free(): invalid pointer", probed bytes w)
    else (Ret UNKNOWN, w).
Proof.
  intros Hlen.
  assert (Hpng :
    andM (byte_is bytes 0 x89) (andM (byte_is bytes 1 x50)
      (andM (byte_is bytes 2 x4e) (byte_is bytes 3 x47))) w =
    (Ret (png_signature bytes), w)).
  { unfold png_signature. rewrite <- !andb_assoc.
    repeat apply andM_pure; apply byte_is_in_range; lia. }
  assert (Hjpeg :
    andM (byte_is bytes 0 xff) (andM (byte_is bytes 1 xd8)
      (byte_is bytes 2 xff)) w =
    (Ret (jpeg_signature bytes), w)).
  { unfold jpeg_signature. rewrite <- !andb_assoc.
    repeat apply andM_pure; apply byte_is_in_range; lia. }
  assert (Hwebp :
    andM (byte_is bytes 8 x57) (andM (byte_is bytes 9 x45)
      (andM (byte_is bytes 10 x42) (byte_is bytes 11 x50))) w =
    (Ret (webp_signature bytes), w)).
  { unfold webp_signature. rewrite <- !andb_assoc.
    repeat apply andM_pure; apply byte_is_in_range; lia. }
  assert (Htiff :
    orM (andM (byte_is bytes 0 x49) (andM (byte_is bytes 1 x49)
           (andM (byte_is bytes 2 x2a) (byte_is bytes 3 x00))))
        (andM (byte_is bytes 0 x4d) (andM (byte_is bytes 1 x4d)
           (andM (byte_is bytes 2 x00) (byte_is bytes 3 x2a)))) w =
    (Ret (tiff_signature bytes), w)).
  { unfold tiff_signature. rewrite <- !andb_assoc.
    apply orM_pure; repeat apply andM_pure; apply byte_is_in_range; lia. }
  unfold vipsImageType.
  destruct bytes as [| b0 rest]; [ simpl in Hlen; lia | ].
  cbn [List.length Nat.eqb].
  unfold bind at 1. rewrite Hpng.
  destruct (png_signature (b0 :: rest)); [ reflexivity | ].
  unfold bind at 1. rewrite Hjpeg.
  destruct (jpeg_signature (b0 :: rest)); [ reflexivity | ].
  unfold bind at 1. rewrite Hwebp.
  destruct (webp_signature (b0 :: rest)); [ reflexivity | ].
  unfold bind at 1. rewrite Htiff.
  destruct (tiff_signature (b0 :: rest)); [ reflexivity | ].
  unfold HasMagickSupport, readImageType, free_go_memory, defer_may_abort,
    probed, andM, index, bind, C_, C, ret, panic.
  cbn [lookup list_lookup fst snd].
  destruct (VIPS_MAGICK_SUPPORT =? 1); [ | reflexivity ].
  cbn. rewrite <- ?app_assoc. reflexivity.
Qed.



Lemma webp_signature_length (bytes : list byte) :
  webp_signature bytes = true -> (12 <= List.length bytes)%nat.
Proof.
  unfold webp_signature, byte_at. intros Hsig.
  destruct (bytes !! 11%nat) as [b |] eqn:Hb.
  - apply lookup_lt_Some in Hb. lia.
  - rewrite andb_false_r in Hsig. discriminate.
Qed.

(** X13. A buffer with "WEBP" at offsets 8 to 11 is WEBP whatever its
    first eight bytes, unless it opens with the PNG or the JPEG signature,
    which are tested first; the TIFF test comes after and never wins over
    it.  libvips is not called. *)
Theorem vipsImageType_webp_at_offset_8 (bytes : list byte) (w : world) :
  webp_signature bytes = true ->
  vipsImageType bytes w =
    (Ret (if png_signature bytes then PNG
          else if jpeg_signature bytes then JPEG else WEBP), w).
Proof.
  intros Hsig.
  rewrite (vipsImageType_long bytes w (webp_signature_length bytes Hsig)).
  rewrite Hsig.
  destruct (png_signature bytes); [ reflexivity | ].
  destruct (jpeg_signature bytes); reflexivity.
Qed.

(** X14. With magick support compiled in, a buffer of at least 12 bytes
    that carries none of the four signatures is handed to libvips once,
    whole and with its length; the deferred [C.free] is then entered on
    the Go buffer itself, where the process is aborted: the sniffer does
    not return, whatever loader libvips named. *)
Theorem vipsImageType_probes_libvips (bytes : list byte) (w : world) :
  (12 <= List.length bytes)%nat ->
  png_signature bytes || jpeg_signature bytes || webp_signature bytes
    || tiff_signature bytes = false ->
  VIPS_MAGICK_SUPPORT = 1 ->
  vipsImageType bytes w =
    (Panic "free(): invalid pointer", probed bytes w) /\
  calls (log (probed bytes w)) =
    calls (log w) ++
    [vips_foreign_find_load_buffer bytes (Z.of_nat (List.length bytes));
     free_slice bytes].
Proof.
  intros Hlen Hnone Hmagick.
  rewrite (vipsImageType_long bytes w Hlen).
  repeat (apply orb_false_elim in Hnone; destruct Hnone as [Hnone ?]).
  unfold HasMagickSupport. rewrite Hmagick.
  repeat match goal with Hx : _ = false |- _ => rewrite Hx; clear Hx end.
  split; [ reflexivity | ].
  unfold probed. cbn [log].
  induction (log w) as [| [c | | | | | |] l IH]; cbn; rewrite ?IH; reflexivity.
Qed.

(** X15. The signature alone decides: every buffer that opens with the
    four bytes of the PNG signature is PNG, and every buffer that opens
    with the three bytes of the JPEG signature is JPEG, however short or
    long the rest is; [DetermineImageTypeName] names them "png" and
    "jpeg". *)
Theorem signature_prefix_decides (rest : list byte) (w : world) :
  vipsImageType (x89 :: x50 :: x4e :: x47 :: rest) w = (Ret PNG, w) /\
  vipsImageType (xff :: xd8 :: xff :: rest) w = (Ret JPEG, w) /\
  DetermineImageTypeName (x89 :: x50 :: x4e :: x47 :: rest) w =
    (Ret "png", w) /\
  DetermineImageTypeName (xff :: xd8 :: xff :: rest) w = (Ret "jpeg", w).
Proof. repeat split. Qed.

Lemma ImageTypeName_range (t : ImageType) :
  ImageTypeName t ∈ ["jpeg"; "png"; "webp"; "tiff"; "magick"; "unknown"].
Proof.
  unfold ImageTypeName. rewrite ImageTypes_lookup.
  repeat case_decide; cbn; set_solver.
Qed.

(** X16. Whenever [DetermineImageTypeName] returns, the name is that of
    the type the sniffer found, and is one of "jpeg", "png", "webp",
    "tiff", "magick" and "unknown". *)
Theorem DetermineImageTypeName_range
  (buf : list byte) (w : world) (name : string) :
  fst (DetermineImageTypeName buf w) = Ret name ->
  name ∈ ["jpeg"; "png"; "webp"; "tiff"; "magick"; "unknown"] /\
  exists t, fst (vipsImageType buf w) = Ret t /\ name = ImageTypeName t.
Proof.
  unfold DetermineImageTypeName, bind, ret.
  destruct (vipsImageType buf w) as [[t | msg] w']; cbn; intros Hname;
    [ | discriminate ].
  injection Hname as <-. split; [ apply ImageTypeName_range | ].
  exists t. split; reflexivity.
Qed.


(** *** Tests that leave the process as it is *)

Lemma byte_is_frame (bytes : list byte) (i : nat) (v : byte) (w : world) :
  snd (byte_is bytes i v w) = w.
Proof.
  unfold byte_is, index, bind, ret, panic.
  destruct (bytes !! i); reflexivity.
Qed.

Lemma andM_frame (a b : M bool) :
  (forall w, snd (a w) = w) -> (forall w, snd (b w) = w) ->
  forall w, snd (andM a b w) = w.
Proof.
  intros Ha Hb w. unfold andM, bind, ret.
  specialize (Ha w). destruct (a w) as [[[] | msg] w']; cbn in *; subst;
    auto.
Qed.

Lemma orM_frame (a b : M bool) :
  (forall w, snd (a w) = w) -> (forall w, snd (b w) = w) ->
  forall w, snd (orM a b w) = w.
Proof.
  intros Ha Hb w. unfold orM, bind, ret.
  specialize (Ha w). destruct (a w) as [[[] | msg] w']; cbn in *; subst;
    auto.
Qed.

Lemma bind_keeps {X} (m : M X) (k : X -> M ImageType) :
  (forall w, snd (m w) = w) ->
  (forall x w, snd (k x w) = w /\ fst (k x w) <> Ret MAGICK) ->
  forall w, snd (bind m k w) = w /\ fst (bind m k w) <> Ret MAGICK.
Proof.
  intros Hm Hk w. unfold bind.
  specialize (Hm w). destruct (m w) as [[x | msg] w']; cbn in *; subst.
  - apply Hk.
  - split; [ reflexivity | discriminate ].
Qed.

(** X17. Without magick support the sniffer is a pure test: on every
    buffer, whether it returns or panics, it calls nothing and leaves the
    process as it was, and it never answers MAGICK. *)
Theorem vipsImageType_without_magick (bytes : list byte) (w : world) :
  VIPS_MAGICK_SUPPORT <> 1 ->
  snd (vipsImageType bytes w) = w /\
  fst (vipsImageType bytes w) <> Ret MAGICK.
Proof.
  intros Hmagick.
  assert (Hoff : HasMagickSupport = false).
  { unfold HasMagickSupport. apply Z.eqb_neq. assumption. }
  assert (Hret : forall (t : ImageType) (w : world),
             t <> MAGICK ->
             snd (ret t w) = w /\ fst (ret t w) <> Ret MAGICK).
  { intros t w' Ht. split; [ reflexivity | ]. cbn. congruence. }
  unfold vipsImageType.
  destruct (List.length bytes =? 0)%nat; [ apply Hret; discriminate | ].
  revert w. apply bind_keeps.
  { repeat apply andM_frame; intros; apply byte_is_frame. }
  intros [] w; [ apply Hret; discriminate | ].
  revert w. apply bind_keeps.
  { repeat apply andM_frame; intros; apply byte_is_frame. }
  intros [] w; [ apply Hret; discriminate | ].
  revert w. apply bind_keeps.
  { repeat apply andM_frame; intros; apply byte_is_frame. }
  intros [] w; [ apply Hret; discriminate | ].
  revert w. apply bind_keeps.
  { apply orM_frame; repeat apply andM_frame; intros; apply byte_is_frame. }
  intros [] w; [ apply Hret; discriminate | ].
  rewrite Hoff. unfold andM, bind, ret. cbn. split; [ reflexivity | discriminate ].
Qed.


(** *** Supported types *)

Lemma ImageTypes_is_Some (t : ImageType) :
  bool_decide (is_Some (ImageTypes !! t)) =
  bool_decide (t ∈ [JPEG; PNG; WEBP; TIFF; MAGICK]).
Proof.
  apply bool_decide_ext. rewrite ImageTypes_lookup.
  repeat case_decide; subst; split; intros Hx;
    try (eexists; reflexivity);
    try (repeat (apply elem_of_cons; first [ left; reflexivity | right ]));
    try (apply is_Some_None in Hx; contradiction);
    repeat (apply elem_of_cons in Hx; destruct Hx as [Hx | Hx];
            [ congruence | ]);
    apply elem_of_nil in Hx; contradiction.
Qed.

(** X18. Once the table of supported types is filled, [IsTypeSupported]
    and [IsTypeSupportedSave] answer from it without discovery: a type is
    supported when it is one of the five of [ImageTypes] and its entry
    says so, a type without entry counts as not supported, and the table
    and libvips are left untouched. *)
Theorem IsTypeSupported_warm_cache (t : ImageType) (w : world) :
  size (SupportedImageTypes w) <> 0%nat ->
  let entry :=
    default {| Load := false; Save := false |}
      (SupportedImageTypes w !! t) in
  let listed := bool_decide (t ∈ [JPEG; PNG; WEBP; TIFF; MAGICK]) in
  fst (IsTypeSupported t w) = Ret (listed && Load entry) /\
  fst (IsTypeSupportedSave t w) = Ret (listed && Save entry) /\
  fst (IsImageTypeSupportedByVips t w) = Ret entry /\
  SupportedImageTypes (snd (IsTypeSupported t w)) = SupportedImageTypes w /\
  engine (snd (IsTypeSupported t w)) = engine w /\
  log (snd (IsTypeSupported t w)) =
    log w ++ (if listed then [imageMutex_RLock; imageMutex_RUnlock] else []).
Proof.
  intros Hwarm entry listed. subst entry listed.
  unfold IsTypeSupported, IsTypeSupportedSave.
  rewrite ImageTypes_is_Some.
  assert (Hsize : (size (SupportedImageTypes w) =? 0)%nat = false).
  { apply Nat.eqb_neq. assumption. }
  unfold IsImageTypeSupportedByVips, get_SupportedImageTypes, bind, emit,
    ret, with_log.
  destruct (bool_decide (t ∈ [JPEG; PNG; WEBP; TIFF; MAGICK]));
    cbn [initialized SupportedImageTypes engine log fst snd andb];
    repeat (rewrite Hsize; cbn);
    destruct (SupportedImageTypes w !! t); cbn;
    repeat split; rewrite <- ?app_assoc, ?app_nil_r; reflexivity.
Qed.

Lemma IsTypeNameSupported_found
  (order : list (ImageType * string)) (t : ImageType) (name : string) :
  NoDup order.*2 -> (t, name) ∈ order ->
  (forall w, IsTypeNameSupported order name w =
             bind (IsImageTypeSupportedByVips t) (fun s => ret (Load s)) w) /\
  (forall w, IsTypeNameSupportedSave order name w =
             bind (IsImageTypeSupportedByVips t) (fun s => ret (Save s)) w).
Proof.
  induction order as [| [t' name'] order IH]; intros Hnd Hin.
  - apply elem_of_nil in Hin. contradiction.
  - cbn in Hnd. apply NoDup_cons in Hnd as [Hfresh Hnd].
    apply elem_of_cons in Hin as [Heq | Hin].
    + injection Heq as <- <-. cbn. rewrite String.eqb_refl.
      split; reflexivity.
    + cbn. destruct (String.eqb_spec name' name) as [-> | Hne].
      * exfalso. apply Hfresh.
        apply list_elem_of_fmap. exists (t, name). split; [ reflexivity | assumption ].
      * apply IH; assumption.
Qed.

Lemma IsTypeNameSupported_missing
  (order : list (ImageType * string)) (name : string) :
  name ∉ order.*2 ->
  (forall w, IsTypeNameSupported order name w = (Ret false, w)) /\
  (forall w, IsTypeNameSupportedSave order name w = (Ret false, w)).
Proof.
  induction order as [| [t' name'] order IH]; intros Hout.
  - split; reflexivity.
  - cbn in Hout. apply not_elem_of_cons in Hout as [Hne Hout].
    cbn. destruct (String.eqb_spec name' name) as [-> | _];
      [ contradiction | ].
    apply IH; assumption.
Qed.

(** X19. Whatever the order in which [range ImageTypes] visits the map,
    asking by name agrees with asking by type: [IsTypeNameSupported] on the
    name of [t] is [IsTypeSupported t], and likewise for saving; for a type
    outside the map the name is "unknown" and both answer false. *)
Theorem IsTypeNameSupported_any_order
  (order : list (ImageType * string)) (t : ImageType) (w : world) :
  range_order order ->
  IsTypeNameSupported order (ImageTypeName t) w = IsTypeSupported t w /\
  IsTypeNameSupportedSave order (ImageTypeName t) w =
    IsTypeSupportedSave t w.
Proof.
  unfold range_order. intros Horder.
  assert (Hnd : NoDup order.*2).
  { rewrite Horder.
    apply (bool_decide_unpack (NoDup (map_to_list ImageTypes).*2)).
    vm_compute. exact I. }
  unfold IsTypeSupported, IsTypeSupportedSave, ImageTypeName.
  destruct (ImageTypes !! t) as [name |] eqn:Hname.
  - assert (Hin : (t, name) ∈ order).
    { rewrite Horder. apply elem_of_map_to_list. assumption. }
    assert (Hne : String.eqb name "" = false).
    { rewrite ImageTypes_lookup in Hname.
      repeat case_decide; try discriminate;
        injection Hname as <-; reflexivity. }
    cbn. rewrite Hne.
    rewrite ?bool_decide_true by (eexists; reflexivity).
    destruct (IsTypeNameSupported_found order t name Hnd Hin) as [Hl Hs].
    split; [ apply Hl | apply Hs ].
  - cbn. rewrite ?bool_decide_false by (intros [? ?]; discriminate).
    assert (Hout : "unknown" ∉ order.*2).
    { rewrite Horder.
      apply (bool_decide_unpack
               ("unknown" ∉ (map_to_list ImageTypes).*2)).
      vm_compute. exact I. }
    destruct (IsTypeNameSupported_missing order "unknown" Hout) as [Hl Hs].
    split; [ apply Hl | apply Hs ].
Qed.

(** X20. Below 2^53, where [float64] holds every integer exactly, [max]
    is the maximum with 0; in particular it is never negative there. *)
Theorem max_clamps_at_zero (x : Z) :
  x < 2 ^ 53 -> max x = Z.max x 0 /\ 0 <= max x.
Proof.
  intros Hx. destruct (Z.lt_ge_cases x 0) as [Hneg | Hpos].
  - rewrite max_negative by assumption. lia.
  - rewrite max_small by lia. lia.
Qed.

End MoreProperties.

(** * Instances of these properties on the concrete platform *)

(** X2, witness: libvips 8.4 with a [vips_init] that fails. *)
Lemma Initialize_start_failure_witness :
  fst (@Initialize demo_platform (demo 8 4 all_fail) w0) =
    Panic "unable to start vips!" /\
  initialized (snd (@Initialize demo_platform (demo 8 4 all_fail) w0)) =
    false.
Proof.
  destruct (@Initialize_start_failure demo_platform (demo 8 4 all_fail) w0
              eq_refl) as (Hpanic & Hflag & _).
  - cbn. discriminate.
  - split; assumption.
Defined.

(** X3, witness: libvips 8.4 started and shut down from a fresh process. *)
Lemma Initialize_then_Shutdown_witness :
  initialized
    (snd (@Shutdown demo_platform (demo 8 4 all_ok)
            (snd (@Initialize demo_platform (demo 8 4 all_ok) w0)))) = false.
Proof.
  destruct (@Initialize_then_Shutdown demo_platform (demo 8 4 all_ok) w0
              eq_refl eq_refl) as (_ & _ & Hflag & _).
  exact Hflag.
Defined.

(** X4, witness: both variables set; tracing is enabled and the
    concurrency is left alone. *)
Lemma Initialize_tuning_follows_environment_witness :
  exists es,
    log (snd (@Initialize demo_platform (demo_env all_ok) w0)) = log w0 ++ es /\
    List.filter is_tuning_call (calls es) = [vips_enable_cache_set_trace].
Proof.
  exact (@Initialize_tuning_follows_environment demo_platform
           (demo_env all_ok) w0 eq_refl).
Defined.


(** X13, witness: "WEBP" at offset 8 behind the TIFF signature. *)
Lemma vipsImageType_webp_at_offset_8_witness :
  @vipsImageType demo_platform (demo 8 4 all_ok)
    [x49; x49; x2a; x00; x24; x00; x00; x00; x57; x45; x42; x50] w0 =
    (Ret WEBP, w0).
Proof.
  exact (@vipsImageType_webp_at_offset_8 demo_platform (demo 8 4 all_ok)
           [x49; x49; x2a; x00; x24; x00; x00; x00; x57; x45; x42; x50] w0
           eq_refl).
Defined.

(** X14, witness: twelve zero bytes with magick support compiled in. *)
Lemma vipsImageType_probes_libvips_witness :
  fst (@vipsImageType demo_platform (demo_env all_ok)
         (replicate 12 x00) w0) = Panic "free(): invalid pointer" /\
  calls (log (snd (@vipsImageType demo_platform (demo_env all_ok)
                     (replicate 12 x00) w0))) =
    [vips_foreign_find_load_buffer (replicate 12 x00) 12;
     free_slice (replicate 12 x00)].
Proof.
  destruct (@vipsImageType_probes_libvips demo_platform (demo_env all_ok)
              (replicate 12 x00) w0) as (Hrun & Hcalls);
    [ cbn; lia | reflexivity | reflexivity | ].
  rewrite Hrun. split; [ reflexivity | exact Hcalls ].
Defined.

(** X16, witness: the PNG signature alone. *)
Lemma DetermineImageTypeName_range_witness :
  "png" ∈ ["jpeg"; "png"; "webp"; "tiff"; "magick"; "unknown"] /\
  exists t,
    fst (@vipsImageType demo_platform (demo 8 4 all_ok)
           [x89; x50; x4e; x47] w0) = Ret t /\
    "png" = ImageTypeName t.
Proof.
  exact (@DetermineImageTypeName_range demo_platform (demo 8 4 all_ok)
           [x89; x50; x4e; x47] w0 "png" eq_refl).
Defined.

(** X17, witness: one zero byte, on which the sniffer panics. *)
Lemma vipsImageType_without_magick_witness :
  snd (@vipsImageType demo_platform (demo 8 4 all_ok) [x00] w0) = w0 /\
  fst (@vipsImageType demo_platform (demo 8 4 all_ok) [x00] w0) <>
    Ret MAGICK.
Proof.
  apply (@vipsImageType_without_magick demo_platform (demo 8 4 all_ok)).
  cbn. discriminate.
Defined.

(** X18, witness: TIFF loads and is not saved. *)
Lemma IsTypeSupported_warm_cache_witness :
  fst (@IsTypeSupported demo_platform (demo 8 4 all_ok) TIFF w_warm) =
    Ret true /\
  fst (@IsTypeSupportedSave demo_platform (demo 8 4 all_ok) TIFF w_warm) =
    Ret false.
Proof.
  destruct (@IsTypeSupported_warm_cache demo_platform (demo 8 4 all_ok)
              TIFF w_warm) as (Hload & Hsave & _).
  - vm_compute. discriminate.
  - split; [ exact Hload | exact Hsave ].
Defined.

(** X19, witness: the order of [map_to_list]. *)
Lemma IsTypeNameSupported_any_order_witness :
  @IsTypeNameSupported demo_platform (demo 8 4 all_ok)
    (map_to_list ImageTypes) "tiff" w_warm =
    @IsTypeSupported demo_platform (demo 8 4 all_ok) TIFF w_warm.
Proof.
  destruct (@IsTypeNameSupported_any_order demo_platform (demo 8 4 all_ok)
              (map_to_list ImageTypes) TIFF w_warm) as (Hload & _).
  - unfold range_order. reflexivity.
  - exact Hload.
Defined.

(** X20, witness: -5 is clamped to 0. *)
Lemma max_clamps_at_zero_witness :
  @max demo_platform (demo 8 4 all_ok) (-5) = 0.
Proof.
  destruct (@max_clamps_at_zero demo_platform (demo 8 4 all_ok) (-5))
    as (Hmax & _); [ lia | ].
  rewrite Hmax. reflexivity.
Defined.
